(** * gPathTrace: progressive path-trace viewer (mainPathTrace.cpp)

    A shallow embedding of the [Sample] window class of
    [source/gPathTrace/mainPathTrace.cpp]: the OptiX scene-graph builder
    [RebuildOptixGraph], the start-up routine [init], the window callbacks
    [reshape], [display], [motion] and [mouse], and the properties of the
    (frame, sample) accumulation counters and of the mouse interaction that
    the design document states about them.

    The two engines ([VolumeGVDB gvdb], [OptixScene optx]) and the window
    system are not part of the file; every call into them is recorded, in
    program order, in a trace, and the few pieces of engine state the
    callbacks read back (camera, volume transform, material table) are kept
    in the world state. *)

From Stdlib Require Import ZArith QArith Qreduction Bool List String Ascii Lia.
Import ListNotations.
Local Open Scope Z_scope.

(* ================================================================== *)
(** ** C++ [int] *)

Module Int32.

Definition min_signed : Z := - 2 ^ 31.
Definition max_signed : Z := 2 ^ 31 - 1.

Definition in_range (z : Z) : Prop := min_signed <= z <= max_signed.

(** Signed overflow is undefined in C++; it is modelled here the way the
    compiled program behaves on two's-complement hardware: the result
    wraps around modulo 2^32. *)
Definition wrap (z : Z) : Z := (z + 2 ^ 31) mod 2 ^ 32 - 2 ^ 31.

Definition add (a b : Z) : Z := wrap (a + b).
Definition neg (a : Z) : Z := wrap (- a).
Definition incr (a : Z) : Z := add a 1.

End Int32.

(* ================================================================== *)
(** ** C++ [float] and [double]

    IEEE-754 binary floating point with round-to-nearest, ties-to-even.  A
    finite value is kept as the rational it denotes, in lowest terms, so
    that equal values are equal terms.  The sign of zero and the payload of
    a NaN are not tracked: nothing in this program observes them. *)

Module Fp.

Inductive float : Type :=
| Fin (q : Q)
| Inf (negative : bool)
| NaN.

(** A binary format: precision in bits, exponent of the least subnormal
    bit, and the power of two at which magnitudes overflow. *)
Record format : Type := { prec : Z; emin : Z; emax : Z }.

Definition binary32 : format := {| prec := 24; emin := -149; emax := 128 |}.
Definition binary64 : format := {| prec := 53; emin := -1074; emax := 1024 |}.

(** [a / d] scaled by [2^(-e)], as a fraction of integers. *)
Definition scaled (a d e : Z) : Z * Z :=
  if 0 <=? e then (a, d * 2 ^ e) else (a * 2 ^ (- e), d).

(** Nearest integer to [num / den], ties to even ([num >= 0], [den > 0]). *)
Definition nearest_even (num den : Z) : Z :=
  let m := num / den in
  let r := num mod den in
  if 2 * r <? den then m
  else if den <? 2 * r then m + 1
  else if Z.even m then m else m + 1.

(** Rounding of the magnitude [a / d] ([a > 0], [d > 0]) to the format:
    the significand [m] and the exponent [e] of the result [m * 2^e]. *)
Definition round_mag (f : format) (a d : Z) : Z * Z :=
  let e0 := Z.log2 a - Z.log2 d - prec f in
  let '(n0, d0) := scaled a d e0 in
  let e1 := if 2 ^ prec f * d0 <=? n0 then e0 + 1 else e0 in
  let e := Z.max e1 (emin f) in
  let '(n, dd) := scaled a d e in
  (nearest_even n dd, e).

Definition pow2Q (e : Z) : Q :=
  if 0 <=? e then inject_Z (2 ^ e) else 1 # Z.to_pos (2 ^ (- e)).

Definition round (f : format) (q : Q) : float :=
  let n := Qnum q in
  if n =? 0 then Fin 0
  else
    let '(m, e) := round_mag f (Z.abs n) (Zpos (Qden q)) in
    if 2 ^ emax f <=? m * 2 ^ Z.max e 0
    then Inf (n <? 0)
    else Fin (Qred (inject_Z (Z.sgn n * m) * pow2Q e)).

Definition opp (x : float) : float :=
  match x with
  | Fin q => Fin (Qred (- q))
  | Inf s => Inf (negb s)
  | NaN => NaN
  end.

Definition add (f : format) (x y : float) : float :=
  match x, y with
  | Fin a, Fin b => round f (a + b)
  | Inf s, Inf t => if Bool.eqb s t then Inf s else NaN
  | Inf s, Fin _ | Fin _, Inf s => Inf s
  | NaN, _ | _, NaN => NaN
  end.

Definition sub (f : format) (x y : float) : float := add f x (opp y).

Definition is_zero (q : Q) : bool := Qnum q =? 0.
Definition is_neg (q : Q) : bool := Qnum q <? 0.

Definition mul (f : format) (x y : float) : float :=
  match x, y with
  | Fin a, Fin b => round f (a * b)
  | Inf s, Inf t => Inf (xorb s t)
  | Inf s, Fin b | Fin b, Inf s =>
      if is_zero b then NaN else Inf (xorb s (is_neg b))
  | NaN, _ | _, NaN => NaN
  end.

Definition div (f : format) (x y : float) : float :=
  match x, y with
  | Fin a, Fin b =>
      if is_zero b
      then (if is_zero a then NaN else Inf (is_neg a))
      else round f (a / b)
  | Fin _, Inf _ => Fin 0
  | Inf s, Fin b => Inf (xorb s (is_neg b))
  | Inf _, Inf _ => NaN
  | NaN, _ | _, NaN => NaN
  end.

End Fp.

Definition float : Type := Fp.float.

(** Single precision, the type of every [float] in the program. *)
Module F32.
Definition round : Q -> float := Fp.round Fp.binary32.
Definition add : float -> float -> float := Fp.add Fp.binary32.
Definition sub : float -> float -> float := Fp.sub Fp.binary32.
Definition mul : float -> float -> float := Fp.mul Fp.binary32.
Definition div : float -> float -> float := Fp.div Fp.binary32.
(** [int] to [float] conversion. *)
Definition of_int (z : Z) : float := round (inject_Z z).
(** A literal with the [f] suffix, given by its decimal value. *)
Definition lit (q : Q) : float := round q.
(** A [double] literal converted to [float]: rounded twice. *)
Definition of_double_lit (q : Q) : float :=
  match Fp.round Fp.binary64 q with
  | Fp.Fin d => round d
  | other => other
  end.
End F32.

(* ================================================================== *)
(** ** Vectors and matrices of the GVDB library *)

Record Vector3DF : Type := { vx : float; vy : float; vz : float }.

(** [Vector3DF(a, b, c)] with [int] arguments, with [double] literals and
    with [float] literals. *)
Definition V3i (a b c : Z) : Vector3DF :=
  {| vx := F32.of_int a; vy := F32.of_int b; vz := F32.of_int c |}.
Definition V3d (a b c : Q) : Vector3DF :=
  {| vx := F32.of_double_lit a; vy := F32.of_double_lit b;
     vz := F32.of_double_lit c |}.
Definition V3f (a b c : Q) : Vector3DF :=
  {| vx := F32.lit a; vy := F32.lit b; vz := F32.lit c |}.

(** [a += b] on vectors. *)
Definition vadd (a b : Vector3DF) : Vector3DF :=
  {| vx := F32.add (vx a) (vx b); vy := F32.add (vy a) (vy b);
     vz := F32.add (vz a) (vz b) |}.

Definition set_vx (v : float) (a : Vector3DF) : Vector3DF :=
  {| vx := v; vy := vy a; vz := vz a |}.
Definition set_vy (v : float) (a : Vector3DF) : Vector3DF :=
  {| vx := vx a; vy := v; vz := vz a |}.
Definition set_vz (v : float) (a : Vector3DF) : Vector3DF :=
  {| vx := vx a; vy := vy a; vz := v |}.

(** A [Matrix4F]; the program only ever builds the identity. *)
Inductive Matrix4F : Type := Identity.

(* ================================================================== *)
(** ** The orbit camera and the volume transform *)

(** Modelled from the spec: [Camera3D] and [Light] are declared in the GVDB
    camera header, which is not part of this file.  Section 3 of the design
    document gives the representation: orbit angles, look-at target, orbit
    distance, dolly offset and field of view, which fully determine the
    view; [setOrbit] and [setFov] store their arguments and the getters
    read them back. *)
Record Camera3D : Type := {
  cam_fov : float;
  cam_ang : Vector3DF;
  cam_to_pos : Vector3DF;
  cam_orbit_dist : float;
  cam_dolly : float
}.

Definition setFov (fov : float) (c : Camera3D) : Camera3D :=
  {| cam_fov := fov; cam_ang := cam_ang c; cam_to_pos := cam_to_pos c;
     cam_orbit_dist := cam_orbit_dist c; cam_dolly := cam_dolly c |}.

Definition setOrbit (angs tp : Vector3DF) (dist dolly : float)
    (c : Camera3D) : Camera3D :=
  {| cam_fov := cam_fov c; cam_ang := angs; cam_to_pos := tp;
     cam_orbit_dist := dist; cam_dolly := dolly |}.

(** Modelled from the spec: [VolumeGVDB::SetTransform] is declared in
    gvdb.h, which is not part of this file.  Section 6 of the design
    document names its four arguments, in order: rotation, scale,
    rotation centre and translation.  The volume keeps the four vectors of
    the last call. *)
Record Transform : Type := {
  t_rotation : Vector3DF;
  t_scale : Vector3DF;
  t_center : Vector3DF;
  t_translation : Vector3DF
}.

(* ================================================================== *)
(** ** What the headers provide

    Enumerators, macros and helper results that [mainPathTrace.cpp] takes
    from gvdb.h, optix_scene.h, main.h and the GL helpers.  They are
    parameters of the model. *)

Record Platform : Type := {
  (** NVPWindow::MouseButton, ButtonAction and KeyModifiers, as [int] *)
  MOUSE_BUTTON_LEFT : Z;
  MOUSE_BUTTON_MIDDLE : Z;
  MOUSE_BUTTON_RIGHT : Z;
  BUTTON_PRESS : Z;
  KMOD_SHIFT : Z;
  (** gvdb.h *)
  SHADE_TRILINEAR : Z;
  SHADE_VOLUME : Z;
  SHADE_EMPTYSKIP : Z;
  GVDB_DEV_CURRENT : Z;
  GVDB_DEV_FIRST : Z;
  ASSET_PATH : string;
  (** the id [OptixScene::AddMaterial] returns for the n-th material
      registered since the graph was last cleared *)
  material_id : nat -> Z;
  (** [Camera3D::moveRelative (dx, dy, dz)] *)
  moveRelative : float -> float -> float -> Camera3D -> Camera3D;
  (** a default-constructed [Camera3D] and [Light] *)
  new_Camera3D : Camera3D;
  new_Light : Camera3D;
  (** the texture id [createScreenQuadGL] leaves in its first argument,
      from the id before the call and the requested size *)
  screen_quad_tex : Z -> Z -> Z -> Z
}.

(** The case labels of a [switch] are pairwise distinct (the program would
    not compile otherwise), and -1, the "no button" value of [mouse_down],
    is not a button. *)
Record PlatformOK (P : Platform) : Prop := {
  shade_tri_vol : SHADE_TRILINEAR P <> SHADE_VOLUME P;
  shade_tri_skip : SHADE_TRILINEAR P <> SHADE_EMPTYSKIP P;
  shade_vol_skip : SHADE_VOLUME P <> SHADE_EMPTYSKIP P;
  button_left_mid : MOUSE_BUTTON_LEFT P <> MOUSE_BUTTON_MIDDLE P;
  button_left_right : MOUSE_BUTTON_LEFT P <> MOUSE_BUTTON_RIGHT P;
  button_mid_right : MOUSE_BUTTON_MIDDLE P <> MOUSE_BUTTON_RIGHT P;
  button_left_some : MOUSE_BUTTON_LEFT P <> -1;
  button_mid_some : MOUSE_BUTTON_MIDDLE P <> -1;
  button_right_some : MOUSE_BUTTON_RIGHT P <> -1
}.

(* ================================================================== *)
(** ** The [Sample] object and the world around it *)

Record Sample : Type := {
  gl_screen_tex : Z;
  mouse_down : Z;
  delta : Vector3DF;
  frame : Z;
  sample : Z;
  max_samples : Z;
  m_shading : Z;
  m_render_optix : bool;
  m_translate : Vector3DF;
  mat_surf1 : Z;
  mat_deep : Z
}.

(** An argument of a recorded call.  [AIndet] is the value of a local
    variable that was never assigned; [ARef] is a pointer or reference,
    named by the expression that produced it. *)
Inductive Arg : Type :=
| AInt (z : Z)
| AFlt (f : float)
| ABool (b : bool)
| AChar (c : ascii)
| AStr (s : string)
| AVec (v : Vector3DF)
| AMat (m : Matrix4F)
| ARef (expr : string)
| AIndet.

Record Call : Type := { callee : string; args : list Arg }.

(** A call together with the accumulation counters of the [Sample] object
    at the moment the call is made. *)
Record Event : Type := { ev_call : Call; ev_frame : Z; ev_sample : Z }.

Record MaterialParams : Type := {
  light_width : float;
  shadow_width : float;
  diff_color : Vector3DF;
  spec_color : Vector3DF;
  spec_power : float;
  env_color : Vector3DF;
  refl_width : float;
  refl_color : Vector3DF;
  refr_width : float;
  refr_color : Vector3DF;
  refr_ior : float;
  refr_amount : float;
  refr_offset : float
}.

Record Material : Type := {
  mat_id : Z;
  mat_name : string;
  mat_closest_hit : string;
  mat_any_hit : string;
  mat_params : option MaterialParams
}.

Record World : Type := {
  self : Sample;
  (** window system *)
  win_width : Z;
  win_height : Z;
  win_mods : Z;
  (** files on disk: where FindFile finds the volume, if it does, and
      whether LoadVDB can read it *)
  env_vdb_path : option string;
  env_vdb_loads : bool;
  (** gvdb: scene camera and light, volume transform, bounds, atlas *)
  scn_camera : Camera3D;
  scn_light : Camera3D;
  vol_xform : Transform;
  vol_world_min : Vector3DF;
  vol_world_max : Vector3DF;
  vol_atlas_glid : Z;
  (** optx: the materials registered since the graph was last cleared *)
  optx_materials : list Material;
  (** every call into gvdb, optx, the window and GL, oldest first *)
  trace : list Event
}.

(* ================================================================== *)
(** ** Assignments to the members of [Sample] and to the world *)

Definition set_gl_screen_tex (v : Z) (s : Sample) : Sample :=
  {| gl_screen_tex := v; mouse_down := mouse_down s; delta := delta s;
     frame := frame s; sample := sample s; max_samples := max_samples s;
     m_shading := m_shading s; m_render_optix := m_render_optix s;
     m_translate := m_translate s; mat_surf1 := mat_surf1 s;
     mat_deep := mat_deep s |}.
Definition set_mouse_down (v : Z) (s : Sample) : Sample :=
  {| gl_screen_tex := gl_screen_tex s; mouse_down := v; delta := delta s;
     frame := frame s; sample := sample s; max_samples := max_samples s;
     m_shading := m_shading s; m_render_optix := m_render_optix s;
     m_translate := m_translate s; mat_surf1 := mat_surf1 s;
     mat_deep := mat_deep s |}.
Definition set_delta (v : Vector3DF) (s : Sample) : Sample :=
  {| gl_screen_tex := gl_screen_tex s; mouse_down := mouse_down s;
     delta := v; frame := frame s; sample := sample s;
     max_samples := max_samples s; m_shading := m_shading s;
     m_render_optix := m_render_optix s; m_translate := m_translate s;
     mat_surf1 := mat_surf1 s; mat_deep := mat_deep s |}.
Definition set_frame (v : Z) (s : Sample) : Sample :=
  {| gl_screen_tex := gl_screen_tex s; mouse_down := mouse_down s;
     delta := delta s; frame := v; sample := sample s;
     max_samples := max_samples s; m_shading := m_shading s;
     m_render_optix := m_render_optix s; m_translate := m_translate s;
     mat_surf1 := mat_surf1 s; mat_deep := mat_deep s |}.
Definition set_sample (v : Z) (s : Sample) : Sample :=
  {| gl_screen_tex := gl_screen_tex s; mouse_down := mouse_down s;
     delta := delta s; frame := frame s; sample := v;
     max_samples := max_samples s; m_shading := m_shading s;
     m_render_optix := m_render_optix s; m_translate := m_translate s;
     mat_surf1 := mat_surf1 s; mat_deep := mat_deep s |}.
Definition set_max_samples (v : Z) (s : Sample) : Sample :=
  {| gl_screen_tex := gl_screen_tex s; mouse_down := mouse_down s;
     delta := delta s; frame := frame s; sample := sample s;
     max_samples := v; m_shading := m_shading s;
     m_render_optix := m_render_optix s; m_translate := m_translate s;
     mat_surf1 := mat_surf1 s; mat_deep := mat_deep s |}.
Definition set_m_shading (v : Z) (s : Sample) : Sample :=
  {| gl_screen_tex := gl_screen_tex s; mouse_down := mouse_down s;
     delta := delta s; frame := frame s; sample := sample s;
     max_samples := max_samples s; m_shading := v;
     m_render_optix := m_render_optix s; m_translate := m_translate s;
     mat_surf1 := mat_surf1 s; mat_deep := mat_deep s |}.
Definition set_m_render_optix (v : bool) (s : Sample) : Sample :=
  {| gl_screen_tex := gl_screen_tex s; mouse_down := mouse_down s;
     delta := delta s; frame := frame s; sample := sample s;
     max_samples := max_samples s; m_shading := m_shading s;
     m_render_optix := v; m_translate := m_translate s;
     mat_surf1 := mat_surf1 s; mat_deep := mat_deep s |}.
Definition set_m_translate (v : Vector3DF) (s : Sample) : Sample :=
  {| gl_screen_tex := gl_screen_tex s; mouse_down := mouse_down s;
     delta := delta s; frame := frame s; sample := sample s;
     max_samples := max_samples s; m_shading := m_shading s;
     m_render_optix := m_render_optix s; m_translate := v;
     mat_surf1 := mat_surf1 s; mat_deep := mat_deep s |}.
Definition set_mat_surf1 (v : Z) (s : Sample) : Sample :=
  {| gl_screen_tex := gl_screen_tex s; mouse_down := mouse_down s;
     delta := delta s; frame := frame s; sample := sample s;
     max_samples := max_samples s; m_shading := m_shading s;
     m_render_optix := m_render_optix s; m_translate := m_translate s;
     mat_surf1 := v; mat_deep := mat_deep s |}.
Definition set_mat_deep (v : Z) (s : Sample) : Sample :=
  {| gl_screen_tex := gl_screen_tex s; mouse_down := mouse_down s;
     delta := delta s; frame := frame s; sample := sample s;
     max_samples := max_samples s; m_shading := m_shading s;
     m_render_optix := m_render_optix s; m_translate := m_translate s;
     mat_surf1 := mat_surf1 s; mat_deep := v |}.

Definition set_self (v : Sample) (w : World) : World :=
  {| self := v; win_width := win_width w; win_height := win_height w;
     win_mods := win_mods w; env_vdb_path := env_vdb_path w;
     env_vdb_loads := env_vdb_loads w; scn_camera := scn_camera w;
     scn_light := scn_light w; vol_xform := vol_xform w;
     vol_world_min := vol_world_min w; vol_world_max := vol_world_max w;
     vol_atlas_glid := vol_atlas_glid w; optx_materials := optx_materials w;
     trace := trace w |}.
Definition set_scn_camera (v : Camera3D) (w : World) : World :=
  {| self := self w; win_width := win_width w; win_height := win_height w;
     win_mods := win_mods w; env_vdb_path := env_vdb_path w;
     env_vdb_loads := env_vdb_loads w; scn_camera := v;
     scn_light := scn_light w; vol_xform := vol_xform w;
     vol_world_min := vol_world_min w; vol_world_max := vol_world_max w;
     vol_atlas_glid := vol_atlas_glid w; optx_materials := optx_materials w;
     trace := trace w |}.
Definition set_scn_light (v : Camera3D) (w : World) : World :=
  {| self := self w; win_width := win_width w; win_height := win_height w;
     win_mods := win_mods w; env_vdb_path := env_vdb_path w;
     env_vdb_loads := env_vdb_loads w; scn_camera := scn_camera w;
     scn_light := v; vol_xform := vol_xform w;
     vol_world_min := vol_world_min w; vol_world_max := vol_world_max w;
     vol_atlas_glid := vol_atlas_glid w; optx_materials := optx_materials w;
     trace := trace w |}.
Definition set_vol_xform (v : Transform) (w : World) : World :=
  {| self := self w; win_width := win_width w; win_height := win_height w;
     win_mods := win_mods w; env_vdb_path := env_vdb_path w;
     env_vdb_loads := env_vdb_loads w; scn_camera := scn_camera w;
     scn_light := scn_light w; vol_xform := v;
     vol_world_min := vol_world_min w; vol_world_max := vol_world_max w;
     vol_atlas_glid := vol_atlas_glid w; optx_materials := optx_materials w;
     trace := trace w |}.
Definition set_optx_materials (v : list Material) (w : World) : World :=
  {| self := self w; win_width := win_width w; win_height := win_height w;
     win_mods := win_mods w; env_vdb_path := env_vdb_path w;
     env_vdb_loads := env_vdb_loads w; scn_camera := scn_camera w;
     scn_light := scn_light w; vol_xform := vol_xform w;
     vol_world_min := vol_world_min w; vol_world_max := vol_world_max w;
     vol_atlas_glid := vol_atlas_glid w; optx_materials := v;
     trace := trace w |}.
Definition set_trace (v : list Event) (w : World) : World :=
  {| self := self w; win_width := win_width w; win_height := win_height w;
     win_mods := win_mods w; env_vdb_path := env_vdb_path w;
     env_vdb_loads := env_vdb_loads w; scn_camera := scn_camera w;
     scn_light := scn_light w; vol_xform := vol_xform w;
     vol_world_min := vol_world_min w; vol_world_max := vol_world_max w;
     vol_atlas_glid := vol_atlas_glid w; optx_materials := optx_materials w;
     trace := v |}.

(* ================================================================== *)
(** ** Running a member function

    A member function either returns a value in a new world, or the
    process ends inside it ([gerror]). *)

Inductive Res (A : Type) : Type :=
| Ok (a : A) (w : World)
| Exit (w : World).
Arguments Ok {A} a w.
Arguments Exit {A} w.

Definition M (A : Type) : Type := World -> Res A.

Definition ret {A : Type} (a : A) : M A := fun w => Ok a w.

Definition bind {A B : Type} (m : M A) (k : A -> M B) : M B :=
  fun w => match m w with
           | Ok a w' => k a w'
           | Exit w' => Exit w'
           end.

Declare Scope cxx_scope.
Delimit Scope cxx_scope with cxx.
Notation "x <- m ;; k" := (bind m (fun x => k))
  (at level 61, m at next level, right associativity) : cxx_scope.
Notation "m ;; k" := (bind m (fun _ => k))
  (at level 61, right associativity) : cxx_scope.
Local Open Scope cxx_scope.

Definition this : M Sample := fun w => Ok (self w) w.

Definition assign (f : Sample -> Sample) : M unit :=
  fun w => Ok tt (set_self (f (self w)) w).

Definition when (b : bool) (m : M unit) : M unit :=
  if b then m else ret tt.

(** Record a call, stamped with the counters of the object. *)
Definition stamp (c : Call) (w : World) : Event :=
  {| ev_call := c; ev_frame := frame (self w); ev_sample := sample (self w) |}.

Definition call (name : string) (a : list Arg) : M unit :=
  fun w =>
    Ok tt (set_trace (trace w ++ [stamp {| callee := name; args := a |} w]) w).

(** Modelled from the spec: [gerror] is defined in the sample framework,
    not in this file.  Section 7 of the design document: a missing asset
    is fatal and aborts start-up.  The call ends the process. *)
Definition gerror : M unit :=
  fun w =>
    Exit (set_trace (trace w ++ [stamp {| callee := "gerror"; args := [] |} w]) w).

(** *** Window system and GL helpers *)

Definition getWidth : M Z := fun w => Ok (win_width w) w.
Definition getHeight : M Z := fun w => Ok (win_height w) w.
Definition getMods : M Z := fun w => Ok (win_mods w) w.

Definition postRedisplay_call : Call :=
  {| callee := "postRedisplay"; args := [] |}.
Definition postRedisplay : M unit := call "postRedisplay" [].

Section Program.

Variable P : Platform.

(** [createScreenQuadGL(&gl_screen_tex, w, h)] *)
Definition createScreenQuadGL (w h : Z) : M unit :=
  s <- this ;;
  call "createScreenQuadGL" [ARef "&gl_screen_tex"; AInt w; AInt h] ;;
  assign (set_gl_screen_tex (screen_quad_tex P (gl_screen_tex s) w h)).

(** *** The scene camera and light, through their pointers *)

Definition getCamera : M Camera3D := fun w => Ok (scn_camera w) w.

Definition cam_setOrbit (angs tp : Vector3DF) (dist dolly : float) : M unit :=
  call "cam->setOrbit" [AVec angs; AVec tp; AFlt dist; AFlt dolly] ;;
  (fun w => Ok tt (set_scn_camera (setOrbit angs tp dist dolly (scn_camera w)) w)).

Definition cam_moveRelative (dx dy dz : float) : M unit :=
  call "cam->moveRelative" [AFlt dx; AFlt dy; AFlt dz] ;;
  (fun w => Ok tt (set_scn_camera (moveRelative P dx dy dz (scn_camera w)) w)).

(** *** gvdb *)

Definition gvdb_SetTransform (a b c d : Vector3DF) : M unit :=
  call "gvdb.SetTransform" [AVec a; AVec b; AVec c; AVec d] ;;
  (fun w => Ok tt (set_vol_xform
     {| t_rotation := a; t_scale := b; t_center := c; t_translation := d |} w)).

Definition gvdb_getWorldMin : M Vector3DF := fun w => Ok (vol_world_min w) w.
Definition gvdb_getWorldMax : M Vector3DF := fun w => Ok (vol_world_max w) w.
Definition gvdb_getAtlasGLID : M Z := fun w => Ok (vol_atlas_glid w) w.

(** *** optx

    Modelled from the spec: [OptixScene] is declared in optix_scene.h, not
    in this file.  Section 4.1 of the design document: [ClearGraph] clears
    any previously built graph, [AddMaterial] registers a material, and the
    nodes added afterwards refer to registered materials by id. *)

Definition optx_ClearGraph : M unit :=
  call "optx.ClearGraph" [] ;;
  (fun w => Ok tt (set_optx_materials [] w)).

Definition optx_AddMaterial (name ch ah : string) : M Z :=
  call "optx.AddMaterial" [AStr name; AStr ch; AStr ah] ;;
  (fun w =>
     let id := material_id P (List.length (optx_materials w)) in
     Ok id (set_optx_materials
              (optx_materials w ++
               [{| mat_id := id; mat_name := name; mat_closest_hit := ch;
                   mat_any_hit := ah; mat_params := None |}]) w)).

Definition with_params (id : Z) (p : MaterialParams) (m : Material) : Material :=
  if mat_id m =? id
  then {| mat_id := mat_id m; mat_name := mat_name m;
          mat_closest_hit := mat_closest_hit m;
          mat_any_hit := mat_any_hit m; mat_params := Some p |}
  else m.

Definition optx_SetMaterialParams (id : Z) (p : MaterialParams) : M unit :=
  call "optx.SetMaterialParams" [AInt id; ARef "matp"] ;;
  (fun w => Ok tt (set_optx_materials (map (with_params id p) (optx_materials w)) w)).

(* ================================================================== *)
(** ** [Sample::RebuildOptixGraph] (lines 81-143) *)

(** The material parameters written through [matp] (lines 90-102). *)
Definition matp : MaterialParams :=
  {| light_width := F32.of_double_lit 0.5;
     shadow_width := F32.of_double_lit 0.5;
     diff_color := V3f 0.5 0.54 0.5;
     spec_color := V3f 0.7 0.7 0.7;
     spec_power := F32.of_double_lit 80;
     env_color := V3i 0 0 0;
     refl_width := F32.lit 0.3;
     refl_color := V3d 0.8 0.8 0.8;
     refr_width := F32.lit 0;
     refr_color := V3i 0 0 0;
     refr_ior := F32.lit 1.2;
     refr_amount := F32.lit 1;
     refr_offset := F32.lit 15 |}.

(** The [switch] of lines 113-117 over the locals [int matid; char isect;],
    both declared without an initial value: [None] is a local that no case
    has assigned.  There is no [default] label. *)
Definition shading_switch (shading : Z) (s : Sample)
    : option Z * option ascii :=
  if shading =? SHADE_TRILINEAR P then (Some (mat_surf1 s), Some "S"%char)
  else if shading =? SHADE_VOLUME P then (Some (mat_deep s), Some "D"%char)
  else if shading =? SHADE_EMPTYSKIP P then (Some (mat_surf1 s), Some "E"%char)
  else (None, None).

Definition int_arg (o : option Z) : Arg :=
  match o with Some z => AInt z | None => AIndet end.
Definition char_arg (o : option ascii) : Arg :=
  match o with Some c => AChar c | None => AIndet end.

Definition RebuildOptixGraph (shading : Z) : M unit :=
  optx_ClearGraph ;;
  call "nvprintf" [AStr "Adding OptiX materials.\n"] ;;
  (* Add surface material *)
  id <- optx_AddMaterial "optix_trace_surface" "trace_surface" "trace_shadow" ;;
  assign (set_mat_surf1 id) ;;
  s <- this ;;
  optx_SetMaterialParams (mat_surf1 s) matp ;;
  (* Add deep volume material *)
  id <- optx_AddMaterial "optix_trace_deep" "trace_deep" "trace_shadow" ;;
  assign (set_mat_deep id) ;;
  s <- this ;;
  optx_SetMaterialParams (mat_deep s) matp ;;
  (* Add GVDB volume to the OptiX scene *)
  call "nvprintf" [AStr "Adding GVDB Volume to OptiX graph.\n"] ;;
  s <- this ;;
  let matid := fst (shading_switch shading s) in
  let isect := snd (shading_switch shading s) in
  volmin <- gvdb_getWorldMin ;;
  volmax <- gvdb_getWorldMax ;;
  let xform := Identity in
  atlas_glid <- gvdb_getAtlasGLID ;;
  call "optx.AddVolume"
    [AInt atlas_glid; AVec volmin; AVec volmax; AMat xform;
     int_arg matid; char_arg isect] ;;
  (* Add polygonal model to the OptiX scene *)
  call "optx.AddPolygons"
    [ARef "gvdb.getScene()->getModel(0)"; AInt 0; AMat xform] ;;
  (* Set Transfer Function (once before validate) *)
  call "optx.SetTransferFunc" [ARef "gvdb.getScene()->getTransferFunc()"] ;;
  (* Validate OptiX graph *)
  call "nvprintf" [AStr "Validating OptiX.\n"] ;;
  call "optx.ValidateGraph" [] ;;
  (* Assign GVDB data to OptiX *)
  call "nvprintf" [AStr "Update GVDB Volume.\n"] ;;
  call "optx.UpdateVolume" [ARef "&gvdb"] ;;
  call "nvprintf" [AStr "Rebuilding Optix.. \n"].

(* ================================================================== *)
(** ** [Sample::init] (lines 145-238) *)

Definition scene_FindFile (name : string) : M (option string) :=
  call "gvdb.getScene()->FindFile" [AStr name; ARef "scnpath"] ;;
  (fun w => Ok (env_vdb_path w) w).

Definition gvdb_LoadVDB (path : string) : M bool :=
  call "gvdb.LoadVDB" [AStr path] ;;
  (fun w => Ok (env_vdb_loads w) w).

Definition init : M bool :=
  w <- getWidth ;;
  h <- getHeight ;;
  assign (set_mouse_down (-1)) ;;
  assign (set_gl_screen_tex (-1)) ;;
  assign (set_frame 0) ;;
  assign (set_sample 0) ;;
  assign (set_max_samples 1024) ;;
  assign (set_m_render_optix true) ;;
  assign (set_m_shading (SHADE_VOLUME P)) ;;
  assign (set_m_translate (V3i (-200) 0 (-400))) ;;
  (* Initialize Optix Scene *)
  s <- this ;;
  when (m_render_optix s) (call "optx.InitializeOptix" [AInt w; AInt h]) ;;
  (* Initialize GVDB *)
  call "gvdb.SetVerbose" [ABool true] ;;
  call "gvdb.SetProfile" [ABool false; ABool false] ;;
  s <- this ;;
  call "gvdb.SetCudaDevice"
    [AInt (if m_render_optix s then GVDB_DEV_CURRENT P else GVDB_DEV_FIRST P)] ;;
  call "gvdb.Initialize" [] ;;
  call "gvdb.AddPath" [AStr "../source/shared_assets/"] ;;
  call "gvdb.AddPath" [AStr "../shared_assets/"] ;;
  call "gvdb.AddPath" [AStr (ASSET_PATH P)] ;;
  call "gvdb.UseOpenGLAtlas" [ABool true] ;;
  (* Load polygons *)
  call "printf" [AStr "Loading polygon model.\n"] ;;
  call "gvdb.getScene()->AddModel"
    [AStr "lucy.obj"; AFlt (F32.of_double_lit 1); AInt 0; AInt 0; AInt 0] ;;
  call "gvdb.CommitGeometry" [AInt 0] ;;
  (* Load VDB *)
  found <- scene_FindFile "wdas_cloud_eighth.vdb" ;;
  scnpath <- match found with
             | Some path => ret path
             | None =>
                 call "gprintf" [AStr "Cannot find vdb file.\n"] ;;
                 gerror ;;
                 ret EmptyString
             end ;;
  call "printf" [AStr "Loading VDB. %s\n"; AStr scnpath] ;;
  call "gvdb.SetChannelDefault" [AInt 16; AInt 16; AInt 1] ;;
  loaded <- gvdb_LoadVDB scnpath ;;
  when (negb loaded) gerror ;;
  call "gvdb.Measure" [ABool true] ;;
  (* Set volume params *)
  s <- this ;;
  gvdb_SetTransform (V3i 0 90 0) (V3d 0.25 0.25 0.25) (V3i 0 0 0)
    (m_translate s) ;;
  call "gvdb.SetEpsilon" [AFlt (F32.of_double_lit 0.001); AInt 256] ;;
  call "gvdb.getScene()->SetSteps"
    [AFlt (F32.lit 0.1); AInt 64; AFlt (F32.lit 0.2)] ;;
  call "gvdb.getScene()->SetExtinct"
    [AFlt (F32.lit (-1)); AFlt (F32.lit 1); AFlt (F32.lit 0.1)] ;;
  call "gvdb.getScene()->SetVolumeRange"
    [AFlt (F32.lit 0.001); AFlt (F32.lit 0); AFlt (F32.lit 0.3)] ;;
  call "gvdb.getScene()->SetCutoff"
    [AFlt (F32.lit 0.0001); AFlt (F32.lit 0.0001); AFlt (F32.lit 0)] ;;
  call "gvdb.getScene()->SetBackgroundClr"
    [AFlt (F32.lit 0.1); AFlt (F32.lit 0.2); AFlt (F32.lit 0.4); AInt 1] ;;
  call "gvdb.getScene()->LinearTransferFunc"
    [AFlt (F32.lit 0); AFlt (F32.lit 1);
     AVec (V3f 0 0 0); AFlt (F32.lit 0);
     AVec (V3f 1 1 1); AFlt (F32.lit 0.1)] ;;
  call "gvdb.CommitTransferFunc" [] ;;
  (* Create Camera *)
  let cam :=
    setOrbit (V3i (-20) 30 0) (V3i 0 0 0) (F32.of_int 500) (F32.of_double_lit 1)
      (setFov (F32.of_double_lit 30) (new_Camera3D P)) in
  call "gvdb.getScene()->SetCamera" [ARef "cam"] ;;
  (fun w => Ok tt (set_scn_camera cam w)) ;;
  (* Create Light *)
  let lgt :=
    setOrbit (V3i 45 45 0) (V3i 0 0 0) (F32.of_int 200) (F32.of_double_lit 1)
      (new_Light P) in
  call "gvdb.getScene()->SetLight" [AInt 0; ARef "lgt"] ;;
  (fun w => Ok tt (set_scn_light lgt w)) ;;
  (* Add render buffer *)
  call "nvprintf" [AStr "Creating screen buffer. %d x %d\n"; AInt w; AInt h] ;;
  call "gvdb.AddRenderBuf" [AInt 0; AInt w; AInt h; AInt 4] ;;
  (* Create opengl texture for display *)
  createScreenQuadGL w h ;;
  (* Rebuild the Optix scene graph with GVDB *)
  s <- this ;;
  when (m_render_optix s) (RebuildOptixGraph (m_shading s)) ;;
  ret true.

(* ================================================================== *)
(** ** [Sample::reshape] (lines 240-253) *)

Definition reshape (w h : Z) : M unit :=
  (* Resize the opengl screen texture *)
  call "glViewport" [AInt 0; AInt 0; AInt w; AInt h] ;;
  createScreenQuadGL w h ;;
  (* Resize the GVDB render buffers *)
  call "gvdb.ResizeRenderBuf" [AInt 0; AInt w; AInt h; AInt 4] ;;
  s <- this ;;
  when (m_render_optix s) (call "optx.ResizeOutput" [AInt w; AInt h]) ;;
  postRedisplay.

(* ================================================================== *)
(** ** [Sample::display] (lines 289-322) *)

Definition SetSample_call (f s : Z) : Call :=
  {| callee := "optx.SetSample"; args := [AInt f; AInt s] |}.

Definition display : M unit :=
  (* Update sample convergence *)
  s <- this ;;
  when (m_render_optix s) (call "optx.SetSample" [AInt (frame s); AInt (sample s)]) ;;
  call "clearScreenGL" [] ;;
  assign (fun s => set_sample (Int32.incr (sample s)) s) ;;     (* ++sample *)
  s <- this ;;
  (if sample s <? max_samples s
   then postRedisplay
   else
     assign (fun s => set_frame (Int32.incr (frame s)) s) ;;    (* ++frame *)
     assign (set_sample 0)) ;;
  s <- this ;;
  (if m_render_optix s
   then
     call "optx.Render" [ARef "&gvdb"; AInt (m_shading s); AInt 0] ;;
     call "optx.ReadOutputTex" [AInt (gl_screen_tex s)]
   else
     call "gvdb.Render" [AInt (m_shading s); AInt 0; AInt 0] ;;
     call "gvdb.ReadRenderTexGL" [AInt 0; AInt (gl_screen_tex s)]) ;;
  (* Render screen-space quad with texture *)
  call "renderScreenQuadGL" [AInt (gl_screen_tex s)] ;;
  postRedisplay.

(* ================================================================== *)
(** ** [Sample::motion] (lines 324-373) and [Sample::mouse] (375-379) *)

Definition motion (x y dx dy : Z) : M unit :=
  (* Get camera for GVDB Scene *)
  cam <- getCamera ;;
  mods <- getMods ;;
  let shift := negb (Z.land mods (KMOD_SHIFT P) =? 0) in
  s <- this ;;
  if mouse_down s =? MOUSE_BUTTON_LEFT P then
    (if shift then
       (* Move volume *)
       assign (fun s => set_m_translate
                 (set_vx (F32.sub (vx (m_translate s)) (F32.of_int dx))
                    (m_translate s)) s) ;;
       assign (fun s => set_m_translate
                 (set_vz (F32.sub (vz (m_translate s)) (F32.of_int dy))
                    (m_translate s)) s) ;;
       s <- this ;;
       gvdb_SetTransform (V3i 0 0 0) (V3d 0.25 0.25 0.25) (V3i 0 0 0)
         (m_translate s)
     else
       (* Adjust orbit angles *)
       let angs := cam_ang cam in
       assign (set_delta
                 {| vx := F32.mul (F32.of_int dx) (F32.lit 0.2);
                    vy := F32.mul (F32.of_int (Int32.neg dy)) (F32.lit 0.2);
                    vz := F32.of_int 0 |}) ;;
       s <- this ;;
       let angs := vadd angs (delta s) in
       cam_setOrbit angs (cam_to_pos cam) (cam_orbit_dist cam) (cam_dolly cam)) ;;
    assign (set_sample 0) ;;
    postRedisplay                                   (* Update display *)
  else if mouse_down s =? MOUSE_BUTTON_MIDDLE P then
    (* Adjust target pos *)
    cam_moveRelative
      (F32.div (F32.mul (F32.of_int dx) (cam_orbit_dist cam)) (F32.of_int 1000))
      (F32.div (F32.mul (F32.of_int (Int32.neg dy)) (cam_orbit_dist cam))
         (F32.of_int 1000))
      (F32.of_int 0) ;;
    assign (set_sample 0) ;;
    postRedisplay                                   (* Update display *)
  else if mouse_down s =? MOUSE_BUTTON_RIGHT P then
    (if shift then
       (* Move volume *)
       assign (fun s => set_m_translate
                 (set_vy (F32.add (vy (m_translate s)) (F32.of_int dy))
                    (m_translate s)) s) ;;
       s <- this ;;
       gvdb_SetTransform (V3i 0 0 0) (V3d 0.25 0.25 0.25) (V3i 0 0 0)
         (m_translate s)
     else
       (* Adjust dist *)
       let dist := cam_orbit_dist cam in
       let dist := F32.sub dist (F32.of_int dy) in
       cam_setOrbit (cam_ang cam) (cam_to_pos cam) dist (cam_dolly cam)) ;;
    assign (set_sample 0) ;;
    postRedisplay                                   (* Update display *)
  else ret tt.

Definition mouse (button state mods x y : Z) : M unit :=
  (* Track when we are in a mouse drag *)
  assign (set_mouse_down (if state =? BUTTON_PRESS P then button else -1)).

End Program.

(* ================================================================== *)
(** ** Observations *)

(** The world a run leaves behind, and whether it returned. *)
Definition world_of {A : Type} (r : Res A) : World :=
  match r with Ok _ w => w | Exit w => w end.

Definition returns {A : Type} (r : Res A) : bool :=
  match r with Ok _ _ => true | Exit _ => false end.

(** The accumulation state (frame, sample). *)
Definition counters (w : World) : Z * Z := (frame (self w), sample (self w)).

(** The events recorded between two worlds. *)
Definition new_events (before after : World) : list Event :=
  skipn (List.length (trace before)) (trace after).

Definition new_calls (before after : World) : list Call :=
  map ev_call (new_events before after).

(** The last thing done between the two worlds was to ask for a redraw. *)
Definition redraw_requested (before after : World) : bool :=
  match rev (new_calls before after) with
  | c :: _ => String.eqb (callee c) "postRedisplay"
  | [] => false
  end.

Definition Render_call (shading : Z) : Call :=
  {| callee := "optx.Render";
     args := [ARef "&gvdb"; AInt shading; AInt 0] |}.

(** An event with given counters. *)
Definition at_counters (c : Call) (fs : Z * Z) : Event :=
  {| ev_call := c; ev_frame := fst fs; ev_sample := snd fs |}.

(** The three shading modes the design document lists for the builder,
    their values in gvdb.h, and the (material, intersection tag) pair the
    document assigns to each: trilinear -> (surface, S), volume ->
    (deep, D), empty-skip -> (surface, E). *)
Inductive ShadingMode : Type := Trilinear | Volume | EmptySkip.

Definition shade_code (P : Platform) (m : ShadingMode) : Z :=
  match m with
  | Trilinear => SHADE_TRILINEAR P
  | Volume => SHADE_VOLUME P
  | EmptySkip => SHADE_EMPTYSKIP P
  end.

Definition spec_pair (m : ShadingMode) (surface deep : Z) : Z * ascii :=
  match m with
  | Trilinear => (surface, "S"%char)
  | Volume => (deep, "D"%char)
  | EmptySkip => (surface, "E"%char)
  end.

Definition AddVolume_call (atlas : Z) (volmin volmax : Vector3DF)
    (matid : option Z) (isect : option ascii) : Call :=
  {| callee := "optx.AddVolume";
     args := [AInt atlas; AVec volmin; AVec volmax; AMat Identity;
              int_arg matid; char_arg isect] |}.

(** The calls [RebuildOptixGraph] makes, given the material ids it
    obtained and the pair its [switch] selected. *)
Definition rebuild_calls (surf deep atlas : Z) (volmin volmax : Vector3DF)
    (matid : option Z) (isect : option ascii) : list Call :=
  [{| callee := "optx.ClearGraph"; args := [] |};
   {| callee := "nvprintf"; args := [AStr "Adding OptiX materials.\n"] |};
   {| callee := "optx.AddMaterial";
      args := [AStr "optix_trace_surface"; AStr "trace_surface";
               AStr "trace_shadow"] |};
   {| callee := "optx.SetMaterialParams"; args := [AInt surf; ARef "matp"] |};
   {| callee := "optx.AddMaterial";
      args := [AStr "optix_trace_deep"; AStr "trace_deep";
               AStr "trace_shadow"] |};
   {| callee := "optx.SetMaterialParams"; args := [AInt deep; ARef "matp"] |};
   {| callee := "nvprintf";
      args := [AStr "Adding GVDB Volume to OptiX graph.\n"] |};
   AddVolume_call atlas volmin volmax matid isect;
   {| callee := "optx.AddPolygons";
      args := [ARef "gvdb.getScene()->getModel(0)"; AInt 0; AMat Identity] |};
   {| callee := "optx.SetTransferFunc";
      args := [ARef "gvdb.getScene()->getTransferFunc()"] |};
   {| callee := "nvprintf"; args := [AStr "Validating OptiX.\n"] |};
   {| callee := "optx.ValidateGraph"; args := [] |};
   {| callee := "nvprintf"; args := [AStr "Update GVDB Volume.\n"] |};
   {| callee := "optx.UpdateVolume"; args := [ARef "&gvdb"] |};
   {| callee := "nvprintf"; args := [AStr "Rebuilding Optix.. \n"] |}].

(** A material of the graph with the parameters of [matp]. *)
Definition material (id : Z) (name ch ah : string) : Material :=
  {| mat_id := id; mat_name := name; mat_closest_hit := ch;
     mat_any_hit := ah; mat_params := Some matp |}.

(** A call that changes the scene graph held by optx. *)
Definition mutates_graph (c : Call) : bool :=
  existsb (String.eqb (callee c))
    ["optx.ClearGraph"; "optx.AddMaterial"; "optx.SetMaterialParams";
     "optx.AddVolume"; "optx.AddPolygons"; "optx.SetTransferFunc"]%string.

(** Camera, light, volume transform and the window are the same in both
    worlds. *)
Definition same_scene (w w' : World) : Prop :=
  scn_camera w' = scn_camera w /\ scn_light w' = scn_light w /\
  vol_xform w' = vol_xform w /\ win_mods w' = win_mods w /\
  win_width w' = win_width w /\ win_height w' = win_height w.

(** [n] display ticks in a row, nothing in between. *)
Fixpoint ticks (n : nat) : M unit :=
  match n with
  | O => ret tt
  | S k => display ;; ticks k
  end.

(** A pointer-motion event as the window system delivers it: the
    arguments of [motion] and the modifier keys held at that moment. *)
Record MotionEvent : Type := {
  me_x : Z; me_y : Z; me_dx : Z; me_dy : Z; me_mods : Z
}.

Definition set_win_mods (v : Z) (w : World) : World :=
  {| self := self w; win_width := win_width w; win_height := win_height w;
     win_mods := v; env_vdb_path := env_vdb_path w;
     env_vdb_loads := env_vdb_loads w; scn_camera := scn_camera w;
     scn_light := scn_light w; vol_xform := vol_xform w;
     vol_world_min := vol_world_min w; vol_world_max := vol_world_max w;
     vol_atlas_glid := vol_atlas_glid w; optx_materials := optx_materials w;
     trace := trace w |}.

Definition deliver (P : Platform) (e : MotionEvent) (w : World) : Res unit :=
  motion P (me_x e) (me_y e) (me_dx e) (me_dy e) (set_win_mods (me_mods e) w).

(** Each event of a drag, in order: the world it was delivered in and
    its outcome. *)
Fixpoint drag (P : Platform) (evs : list MotionEvent) (w : World)
    : list (World * Res unit) :=
  match evs with
  | [] => []
  | e :: rest =>
      let r := deliver P e w in
      (w, r) :: (if returns r then drag P rest (world_of r) else [])
  end.

Definition shift_held (P : Platform) (w : World) : bool :=
  negb (Z.land (win_mods w) (KMOD_SHIFT P) =? 0).

Definition button_held (P : Platform) (w : World) : Prop :=
  mouse_down (self w) = MOUSE_BUTTON_LEFT P \/
  mouse_down (self w) = MOUSE_BUTTON_MIDDLE P \/
  mouse_down (self w) = MOUSE_BUTTON_RIGHT P.

(* ================================================================== *)
(** ** A concrete session

    The enumerator values of the NVIDIA sample framework and of gvdb.h,
    material ids counted from 0, and a world in which nothing has run yet. *)

Definition origin : Vector3DF := V3i 0 0 0.

Definition blank_camera : Camera3D :=
  {| cam_fov := F32.of_int 0; cam_ang := origin; cam_to_pos := origin;
     cam_orbit_dist := F32.of_int 0; cam_dolly := F32.of_int 0 |}.

Definition sample_platform : Platform :=
  {| MOUSE_BUTTON_LEFT := 0; MOUSE_BUTTON_MIDDLE := 2; MOUSE_BUTTON_RIGHT := 1;
     BUTTON_PRESS := 1; KMOD_SHIFT := 1;
     SHADE_TRILINEAR := 4; SHADE_VOLUME := 7; SHADE_EMPTYSKIP := 3;
     GVDB_DEV_CURRENT := -2; GVDB_DEV_FIRST := -1;
     ASSET_PATH := "../shared_assets/";
     material_id := Z.of_nat;
     moveRelative := fun dx dy dz c =>
       setOrbit (cam_ang c)
         {| vx := F32.add (vx (cam_to_pos c)) dx;
            vy := F32.add (vy (cam_to_pos c)) dy;
            vz := F32.add (vz (cam_to_pos c)) dz |}
         (cam_orbit_dist c) (cam_dolly c) c;
     new_Camera3D := blank_camera;
     new_Light := blank_camera;
     screen_quad_tex := fun old w h => if old =? -1 then 1 else old |}.

Definition blank_sample : Sample :=
  {| gl_screen_tex := 0; mouse_down := 0; delta := origin; frame := 0;
     sample := 0; max_samples := 0; m_shading := 0; m_render_optix := false;
     m_translate := origin; mat_surf1 := 0; mat_deep := 0 |}.

Definition blank_world : World :=
  {| self := blank_sample; win_width := 1024; win_height := 768;
     win_mods := 0; env_vdb_path := Some "../shared_assets/wdas_cloud_eighth.vdb"%string;
     env_vdb_loads := true;
     scn_camera := blank_camera; scn_light := blank_camera;
     vol_xform := {| t_rotation := origin; t_scale := origin;
                     t_center := origin; t_translation := origin |};
     vol_world_min := origin; vol_world_max := V3i 1 1 1;
     vol_atlas_glid := 3; optx_materials := []; trace := [] |}.

(** The session right after [init]. *)
Definition started : World := world_of (init sample_platform blank_world).

(** The same world with other accumulation counters. *)
Definition with_counters (f s : Z) (w : World) : World :=
  set_self (set_sample s (set_frame f (self w))) w.

(** The same world with a mouse button and modifier keys held. *)
Definition holding (button mods : Z) (w : World) : World :=
  set_win_mods mods (set_self (set_mouse_down button (self w)) w).

(* ================================================================== *)
(** ** [Sample::draw_topology] (lines 255-287)

    The topology the function walks is held by gvdb: for each level the
    nodes [getNodeAtLevel (n, lev)], n below [getNumTotalNodes (lev)], each
    with its flags and its world-space box ([getWorldMin (node)],
    [getWorldMax (node)]).  It is an argument of the model. *)

Record Node : Type := {
  node_flags : Z;
  node_world_min : Vector3DF;
  node_world_max : Vector3DF
}.

Definition Topology : Type := Z -> list Node.

(** The entries of [clrs] that lines 258-266 assign (the array has ten
    slots, the last one is never written). *)
Definition clrs : list Vector3DF :=
  [V3i 0 0 1;                                   (* blue *)
   V3i 0 1 0;                                   (* green *)
   V3i 1 0 0;                                   (* red *)
   V3i 1 1 0;                                   (* yellow *)
   V3i 1 0 1;                                   (* purple *)
   V3i 0 1 1;                                   (* aqua *)
   {| vx := F32.of_int 1; vy := F32.of_double_lit 0.5; vz := F32.of_int 0 |};
   {| vx := F32.of_int 0; vy := F32.of_double_lit 0.5; vz := F32.of_int 1 |};
   V3f 0.7 0.7 0.7].                            (* grey *)

Definition clr (lev : Z) : Vector3DF := nth (Z.to_nat lev) clrs origin.

(** The body of the inner loop for one node. *)
Definition draw_node (lev : Z) (node : Node) : M unit :=
  if Int32.wrap (node_flags node) =? 0      (* if (!int(node->mFlags)) *)
  then ret tt                                (* continue *)
  else
    let bmin := node_world_min node in       (* get node bounding box *)
    let bmax := node_world_max node in       (* draw node as a box *)
    call "drawBox3D"
      [AFlt (vx bmin); AFlt (vy bmin); AFlt (vz bmin);
       AFlt (vx bmax); AFlt (vy bmax); AFlt (vz bmax);
       AFlt (vx (clr lev)); AFlt (vy (clr lev)); AFlt (vz (clr lev));
       AInt 1].

(** draw all nodes at this level *)
Fixpoint draw_nodes (lev : Z) (nodes : list Node) : M unit :=
  match nodes with
  | [] => ret tt
  | node :: rest => (draw_node lev node ;; draw_nodes lev rest)%cxx
  end.

(** draw all levels *)
Fixpoint draw_levels (topo : Topology) (levs : list Z) : M unit :=
  match levs with
  | [] => ret tt
  | lev :: rest => (draw_nodes lev (topo lev) ;; draw_levels topo rest)%cxx
  end.

Definition draw_topology (topo : Topology) : M unit :=
  (call "start3D" [ARef "gvdb.getScene()->getCamera()"] ;;
   draw_levels topo [0; 1; 2; 3; 4] ;;
   call "end3D" [])%cxx.

(** The call that draws one node. *)
Definition drawBox3D_call (lev : Z) (node : Node) : Call :=
  {| callee := "drawBox3D";
     args := [AFlt (vx (node_world_min node)); AFlt (vy (node_world_min node));
              AFlt (vz (node_world_min node)); AFlt (vx (node_world_max node));
              AFlt (vy (node_world_max node)); AFlt (vz (node_world_max node));
              AFlt (vx (clr lev)); AFlt (vy (clr lev)); AFlt (vz (clr lev));
              AInt 1] |}.

(** The boxes a level contributes: its nodes with a nonzero flag word, in
    order. *)
Definition flagged (node : Node) : bool :=
  negb (Int32.wrap (node_flags node) =? 0).

Definition level_boxes (topo : Topology) (lev : Z) : list Call :=
  map (drawBox3D_call lev) (filter flagged (topo lev)).

Definition start3D_call : Call :=
  {| callee := "start3D"; args := [ARef "gvdb.getScene()->getCamera()"] |}.
Definition end3D_call : Call := {| callee := "end3D"; args := [] |}.

(** The world with some further calls recorded, all under the counters it
    has. *)
Definition logged (cs : list Call) (w : World) : World :=
  set_trace (trace w ++ map (fun c => stamp c w) cs) w.

(* ================================================================== *)
(** ** A session: the callbacks in the order the window system makes them *)

Inductive InputEvent : Type :=
| Tick
| Move (e : MotionEvent)
| Click (button state mods x y : Z)
| Resize (w h : Z).

Definition handle (P : Platform) (ev : InputEvent) : M unit :=
  match ev with
  | Tick => display
  | Move e => deliver P e
  | Click button state mods x y => mouse P button state mods x y
  | Resize w h => reshape P w h
  end.

Fixpoint session (P : Platform) (evs : list InputEvent) : M unit :=
  match evs with
  | [] => ret tt
  | ev :: rest => (handle P ev ;; session P rest)%cxx
  end.

(** What [init] chooses once and no callback writes afterwards. *)
Definition settings (w : World)
    : Z * Z * bool * Z * Z * list Material :=
  (max_samples (self w), m_shading (self w), m_render_optix (self w),
   mat_surf1 (self w), mat_deep (self w), optx_materials w).

(** The sample counter is within the budget. *)
Definition sample_in_budget (w : World) : Prop :=
  0 <= sample (self w) < max_samples (self w).

(** Number of display ticks among the events. *)
Definition count_ticks (evs : list InputEvent) : nat :=
  List.length (filter (fun ev => match ev with Tick => true | _ => false end) evs).

(** A call to one of the two render entry points. *)
Definition is_render (c : Call) : bool :=
  String.eqb (callee c) "optx.Render" || String.eqb (callee c) "gvdb.Render".

Definition on_optx (c : Call) : bool := String.prefix "optx." (callee c).
Definition on_gvdb (c : Call) : bool := String.prefix "gvdb." (callee c).

(** Position of the first call to [name] in a list of calls. *)
Fixpoint first_call (name : string) (cs : list Call) : option nat :=
  match cs with
  | [] => None
  | c :: rest =>
      if String.eqb (callee c) name then Some O
      else option_map S (first_call name rest)
  end.

(** Position of the last call to [name]. *)
Definition last_call (name : string) (cs : list Call) : option nat :=
  option_map (fun i => (List.length cs - 1 - i)%nat) (first_call name (rev cs)).

(** Every call to [a] comes before every call to [b], and both occur. *)
Definition all_before (a b : string) (cs : list Call) : bool :=
  match last_call a cs, first_call b cs with
  | Some i, Some j => Nat.ltb i j
  | _, _ => false
  end.

(** Total and total absolute pointer travel of a list of motion events. *)
Definition travel (f : MotionEvent -> Z) (evs : list MotionEvent) : Z :=
  fold_right Z.add 0 (map f evs).

Definition abs_travel (f : MotionEvent -> Z) (evs : list MotionEvent) : Z :=
  fold_right Z.add 0 (map (fun e => Z.abs (f e)) evs).


(* ================================================================== *)
(** * Properties *)

(** ** Arithmetic on [int] *)

Lemma Int32_wrap_in_range z : Int32.in_range (Int32.wrap z).
Proof.
  unfold Int32.in_range, Int32.wrap, Int32.min_signed, Int32.max_signed.
  pose proof (Z.mod_pos_bound (z + 2 ^ 31) (2 ^ 32) ltac:(lia)). lia.
Qed.

Lemma Int32_wrap_small z : Int32.in_range z -> Int32.wrap z = z.
Proof.
  unfold Int32.in_range, Int32.wrap, Int32.min_signed, Int32.max_signed.
  intros H. rewrite Z.mod_small; lia.
Qed.

Lemma Int32_incr_small z :
  Int32.in_range z -> z < Int32.max_signed -> Int32.incr z = z + 1.
Proof.
  unfold Int32.incr, Int32.add. intros H Hlt. apply Int32_wrap_small.
  unfold Int32.in_range, Int32.max_signed, Int32.min_signed in *. lia.
Qed.

(** Incrementing always changes the value, wrap-around included. *)
Lemma Int32_incr_neq z : Int32.incr z <> z.
Proof.
  unfold Int32.incr, Int32.add, Int32.wrap. intros H.
  pose proof (Z.div_mod (z + 1 + 2 ^ 31) (2 ^ 32) ltac:(lia)) as D.
  assert (E : (z + 1 + 2 ^ 31) mod 2 ^ 32 = z + 2 ^ 31) by lia.
  rewrite E in D. lia.
Qed.

(** ** The arithmetic model on a few values *)

Example f32_literal_0_2 : F32.lit 0.2 = Fp.Fin (13421773 # 67108864).
Proof. vm_compute. reflexivity. Qed.

Example f32_product_not_exact :
  F32.mul (F32.of_int 3) (F32.lit 0.2) = Fp.Fin (5033165 # 8388608).
Proof. vm_compute. reflexivity. Qed.

Example f32_of_int_ties_to_even :
  F32.of_int 16777217 = Fp.Fin 16777216 /\
  F32.of_int 16777219 = Fp.Fin 16777220.
Proof. vm_compute. split; reflexivity. Qed.

Example f32_overflow :
  F32.round (inject_Z (2 ^ 128 - 2 ^ 103 - 1))
    = Fp.Fin (inject_Z (2 ^ 128 - 2 ^ 104)) /\
  F32.round (inject_Z (2 ^ 128 - 2 ^ 103)) = Fp.Inf false.
Proof. vm_compute. split; reflexivity. Qed.

Example f32_subnormal :
  F32.round (3 # Z.to_pos (2 ^ 150)) = Fp.Fin (1 # Z.to_pos (2 ^ 148)).
Proof. vm_compute. reflexivity. Qed.

(** [+=] on angles is an addition of [float]s: far from zero it absorbs
    small increments. *)
Example f32_add_absorbs :
  F32.add (F32.of_int 33554432) (Fp.Fin 2) = F32.of_int 33554432.
Proof. vm_compute. reflexivity. Qed.

Example int32_incr_wraps : Int32.incr Int32.max_signed = Int32.min_signed.
Proof. vm_compute. reflexivity. Qed.

(** ** Symbolic execution *)

Ltac exec :=
  cbv beta iota zeta delta
    [bind ret this assign when call postRedisplay gerror getWidth getHeight
     getMods createScreenQuadGL getCamera cam_setOrbit cam_moveRelative
     gvdb_SetTransform gvdb_getWorldMin gvdb_getWorldMax gvdb_getAtlasGLID
     optx_ClearGraph optx_AddMaterial optx_SetMaterialParams
     scene_FindFile gvdb_LoadVDB
     self win_width win_height win_mods env_vdb_path env_vdb_loads
     scn_camera scn_light vol_xform vol_world_min vol_world_max
     vol_atlas_glid optx_materials trace
     set_self set_scn_camera set_scn_light set_vol_xform
     set_optx_materials set_trace set_win_mods
     gl_screen_tex mouse_down delta frame sample max_samples m_shading
     m_render_optix m_translate mat_surf1 mat_deep
     set_gl_screen_tex set_mouse_down set_delta set_frame set_sample
     set_max_samples set_m_shading set_m_render_optix set_m_translate
     set_mat_surf1 set_mat_deep
     world_of returns counters stamp ev_call ev_frame ev_sample negb].

Ltac open_world w := destruct w as [[] ? ? ? ? ? ? ? ? ? ? ? ? ?].

Lemma skipn_length_app {A : Type} (l r : list A) :
  skipn (List.length l) (l ++ r) = r.
Proof. induction l as [|a l IH]; [reflexivity | exact IH]. Qed.

(** ** The display tick *)

(** One tick always returns, and moves the counters as the [if] of lines
    297-303 says. *)
Lemma display_run (w : World) :
  exists w', display w = Ok tt w' /\
    counters w' =
      (if Int32.incr (sample (self w)) <? max_samples (self w)
       then (frame (self w), Int32.incr (sample (self w)))
       else (Int32.incr (frame (self w)), 0)) /\
    max_samples (self w') = max_samples (self w).
Proof.
  open_world w. unfold display. exec.
  destruct m_render_optix0;
    destruct (Int32.incr sample0 <? max_samples0);
    eexists; repeat split; reflexivity.
Qed.

(** C1 (as amended): a display tick started at (frame, sample) yields
    (frame, sample + 1) when sample + 1 < max_samples, and yields
    (frame + 1, 0) when sample = max_samples - 1; the counters are [int]s
    and frame is below the largest [int]. *)
Theorem display_advances_counters (w : World) :
  Int32.in_range (sample (self w)) ->
  Int32.in_range (max_samples (self w)) ->
  Int32.in_range (frame (self w)) ->
  frame (self w) < Int32.max_signed ->
  exists w', display w = Ok tt w' /\
    (sample (self w) + 1 < max_samples (self w) ->
       counters w' = (frame (self w), sample (self w) + 1)) /\
    (sample (self w) = max_samples (self w) - 1 ->
       counters w' = (frame (self w) + 1, 0)).
Proof.
  intros Hs Hm Hf Hlt.
  destruct (display_run w) as (w' & E & C & _).
  exists w'. split; [exact E|]. rewrite C.
  assert (R : sample (self w) < Int32.max_signed ->
              Int32.incr (sample (self w)) = sample (self w) + 1)
    by (intros; apply Int32_incr_small; assumption).
  unfold Int32.in_range in Hm. split; intros H.
  - rewrite R by lia.
    destruct (Z.ltb_spec (sample (self w) + 1) (max_samples (self w)));
      [reflexivity | lia].
  - rewrite R by lia.
    rewrite (Int32_incr_small (frame (self w))) by assumption.
    destruct (Z.ltb_spec (sample (self w) + 1) (max_samples (self w)));
      [lia | reflexivity].
Qed.

Lemma display_advances_counters_witness :
  let w := with_counters 0 1023 started in
  Int32.in_range (sample (self w)) /\
  Int32.in_range (max_samples (self w)) /\
  Int32.in_range (frame (self w)) /\
  frame (self w) < Int32.max_signed /\
  exists w', display w = Ok tt w' /\ counters w' = (1, 0).
Proof.
  intros w.
  assert (Hs : Int32.in_range (sample (self w)))
    by (vm_compute; split; discriminate).
  assert (Hm : Int32.in_range (max_samples (self w)))
    by (vm_compute; split; discriminate).
  assert (Hf : Int32.in_range (frame (self w)))
    by (vm_compute; split; discriminate).
  assert (Hlt : frame (self w) < Int32.max_signed)
    by (vm_compute; reflexivity).
  repeat (split; [assumption|]).
  destruct (display_advances_counters w Hs Hm Hf Hlt) as (w' & E & _ & B).
  exists w'. split; [exact E|]. apply B. vm_compute. reflexivity.
Defined.

(** C1, as stated, fails at sample = max_samples - 1: there
    sample < max_samples holds, yet the tick yields (frame + 1, 0) and not
    (frame, sample + 1). *)
Lemma display_last_sample_counterexample :
  let w := with_counters 0 1023 started in
  sample (self w) < max_samples (self w) /\
  counters (world_of (display w)) = (1, 0) /\
  counters (world_of (display w)) <> (frame (self w), sample (self w) + 1).
Proof.
  vm_compute. repeat split; discriminate.
Qed.

Lemma counters_inv (w : World) (f s : Z) :
  counters w = (f, s) -> frame (self w) = f /\ sample (self w) = s.
Proof. unfold counters. intros H. injection H as Hf Hs. split; assumption. Qed.

(** Ticks up to and including the one on which the sample budget is
    reached: the counters end at (frame + 1, 0). *)
Lemma ticks_to_rollover (n : nat) :
  forall w,
    Int32.in_range (sample (self w)) ->
    Int32.in_range (max_samples (self w)) ->
    Int32.in_range (frame (self w)) ->
    frame (self w) < Int32.max_signed ->
    sample (self w) + Z.of_nat (S n) = max_samples (self w) ->
    exists w', ticks (S n) w = Ok tt w' /\
      counters w' = (frame (self w) + 1, 0).
Proof.
  induction n as [|n IH]; intros w Hs Hm Hf Hlt Hn;
    destruct (display_run w) as (w1 & E & C & M);
    assert (R : Int32.incr (sample (self w)) = sample (self w) + 1)
      by (apply Int32_incr_small;
          [assumption | unfold Int32.in_range in Hm; lia]);
    rewrite R in C.
  - exists w1. split.
    + change (ticks 1 w) with (bind display (fun _ => ret tt) w).
      unfold bind. rewrite E. reflexivity.
    + rewrite C. rewrite Int32_incr_small by assumption.
      destruct (Z.ltb_spec (sample (self w) + 1) (max_samples (self w)));
        [lia | reflexivity].
  - destruct (Z.ltb_spec (sample (self w) + 1) (max_samples (self w)));
      [| lia].
    apply counters_inv in C. destruct C as [Cf Cs].
    destruct (IH w1) as (w2 & E2 & C2).
    + rewrite Cs. unfold Int32.in_range in *. lia.
    + rewrite M. assumption.
    + rewrite Cf. assumption.
    + rewrite Cf. assumption.
    + rewrite Cs, M. lia.
    + exists w2. split.
      * change (ticks (S (S n)) w)
          with (bind display (fun _ => ticks (S n)) w).
        unfold bind. rewrite E. exact E2.
      * rewrite C2, Cf. reflexivity.
Qed.

(** *** Order of the steps of a tick *)

Ltac show_new_events :=
  unfold new_calls, new_events; cbv beta iota delta [trace];
  repeat rewrite <- app_assoc; rewrite skipn_length_app; cbn [app map].

(** The events of a tick with the OptiX back end, each with the counters
    in force when it happens. *)
Lemma display_events (w : World) :
  m_render_optix (self w) = true ->
  exists w', display w = Ok tt w' /\
    new_events w w' =
      [at_counters (SetSample_call (frame (self w)) (sample (self w)))
         (counters w);
       at_counters {| callee := "clearScreenGL"; args := [] |} (counters w)]
      ++ (if Int32.incr (sample (self w)) <? max_samples (self w)
          then [at_counters postRedisplay_call (counters w')] else [])
      ++ [at_counters (Render_call (m_shading (self w))) (counters w');
          at_counters {| callee := "optx.ReadOutputTex";
                         args := [AInt (gl_screen_tex (self w))] |}
            (counters w');
          at_counters {| callee := "renderScreenQuadGL";
                         args := [AInt (gl_screen_tex (self w))] |}
            (counters w');
          at_counters postRedisplay_call (counters w')].
Proof.
  open_world w. cbn [self m_render_optix]. intros ->.
  unfold display. exec.
  destruct (Int32.incr sample0 <? max_samples0);
    eexists; (split; [reflexivity|]); show_new_events; reflexivity.
Qed.

(** C6 (as amended): in a tick with the OptiX back end, [SetSample] comes
    first and carries the (frame, sample) pair as it is before the
    advancement; it is the only [SetSample] of the tick.  The advancement
    then happens before the render dispatch: [optx.Render] is issued with
    the counters already at their values for the end of the tick, which
    differ from the pair the back end was told. *)
Theorem display_informs_then_advances (w : World) :
  m_render_optix (self w) = true ->
  exists w' before after,
    display w = Ok tt w' /\
    new_events w w' =
      at_counters (SetSample_call (frame (self w)) (sample (self w)))
        (counters w)
      :: before
      ++ at_counters (Render_call (m_shading (self w))) (counters w')
      :: after /\
    Forall (fun e => String.eqb (callee (ev_call e)) "optx.SetSample" = false)
      (before ++ after) /\
    counters w' <> counters w.
Proof.
  intros Ho.
  destruct (display_events w Ho) as (w' & E & N).
  destruct (display_run w) as (w'' & E' & C & _).
  rewrite E in E'. injection E' as <-.
  exists w'.
  destruct (Int32.incr (sample (self w)) <? max_samples (self w)).
  - eexists [_; _]. eexists. split; [exact E|]. split; [exact N|].
    split; [repeat constructor|].
    rewrite C. unfold counters. intros H. injection H as H.
    exact (Int32_incr_neq _ H).
  - eexists [_]. eexists. split; [exact E|]. split; [exact N|].
    split; [repeat constructor|].
    rewrite C. unfold counters. intros H. injection H as H _.
    exact (Int32_incr_neq _ H).
Qed.

Lemma display_informs_then_advances_witness :
  m_render_optix (self started) = true /\
  exists w' before after,
    display started = Ok tt w' /\
    new_events started w' =
      at_counters (SetSample_call 0 0) (0, 0)
      :: before ++ at_counters (Render_call 7) (counters w') :: after /\
    Forall (fun e => String.eqb (callee (ev_call e)) "optx.SetSample" = false)
      (before ++ after) /\
    counters w' <> counters started.
Proof.
  split; [vm_compute; reflexivity|].
  apply (display_informs_then_advances started). vm_compute. reflexivity.
Defined.

(** C6, as stated, fails: on the first tick after [init] the back end is
    told the pair (0, 0), the sample index before the advancement, while
    the render is dispatched with the sample index at 1. *)
Lemma display_setsample_counterexample :
  let w' := world_of (display started) in
  map (fun e => (callee (ev_call e), ev_sample e)) (new_events started w')
    = [("optx.SetSample", 0); ("clearScreenGL", 0); ("postRedisplay", 1);
       ("optx.Render", 1); ("optx.ReadOutputTex", 1);
       ("renderScreenQuadGL", 1); ("postRedisplay", 1)]%string /\
  In (at_counters (SetSample_call 0 0) (0, 0)) (new_events started w') /\
  In (at_counters (Render_call 7) (0, 1)) (new_events started w') /\
  ~ In (at_counters (SetSample_call 0 1) (0, 1)) (new_events started w').
Proof.
  vm_compute. split; [reflexivity|]. split; [tauto|]. split; [tauto|].
  intros H. repeat (destruct H as [H|H]; [discriminate H|]). exact H.
Qed.

(** ** The scene-graph builder *)

(** [RebuildOptixGraph] always returns.  It writes the two material ids
    into the object and nothing else, registers the two materials after
    clearing the graph, and makes the calls of [rebuild_calls] with the
    pair its [switch] selected. *)
Lemma rebuild_run (P : Platform) (shading : Z) (w : World) :
  exists w',
    RebuildOptixGraph P shading w = Ok tt w' /\
    self w' =
      set_mat_deep (material_id P 1)
        (set_mat_surf1 (material_id P 0) (self w)) /\
    same_scene w w' /\
    optx_materials w' =
      [material (material_id P 0)
         "optix_trace_surface" "trace_surface" "trace_shadow";
       material (material_id P 1)
         "optix_trace_deep" "trace_deep" "trace_shadow"] /\
    new_calls w w' =
      rebuild_calls (material_id P 0) (material_id P 1)
        (vol_atlas_glid w) (vol_world_min w) (vol_world_max w)
        (fst (shading_switch P shading (self w')))
        (snd (shading_switch P shading (self w'))) /\
    Forall (fun e => (ev_frame e, ev_sample e) = counters w)
      (new_events w w').
Proof.
  open_world w. unfold RebuildOptixGraph. exec.
  eexists. split; [reflexivity|].
  split; [reflexivity|].
  split; [repeat split|].
  split.
  - cbn [optx_materials List.length app map with_params mat_id].
    unfold with_params, material. cbn [mat_id].
    rewrite !Z.eqb_refl.
    cbn [mat_id mat_name mat_closest_hit mat_any_hit mat_params].
    destruct (material_id P 0 =? material_id P 1); reflexivity.
  - split.
    + show_new_events. reflexivity.
    + show_new_events. repeat constructor.
Qed.

Lemma shading_switch_valid (P : Platform) (m : ShadingMode) (s : Sample) :
  PlatformOK P ->
  shading_switch P (shade_code P m) s =
    (Some (fst (spec_pair m (mat_surf1 s) (mat_deep s))),
     Some (snd (spec_pair m (mat_surf1 s) (mat_deep s)))).
Proof.
  intros [Htv Hts Hvs _ _ _ _ _ _]. unfold shading_switch.
  destruct m; cbn [shade_code spec_pair fst snd].
  - rewrite Z.eqb_refl. reflexivity.
  - destruct (Z.eqb_spec (SHADE_VOLUME P) (SHADE_TRILINEAR P)) as [E|_];
      [congruence|].
    rewrite Z.eqb_refl. reflexivity.
  - destruct (Z.eqb_spec (SHADE_EMPTYSKIP P) (SHADE_TRILINEAR P)) as [E|_];
      [congruence|].
    destruct (Z.eqb_spec (SHADE_EMPTYSKIP P) (SHADE_VOLUME P)) as [E|_];
      [congruence|].
    rewrite Z.eqb_refl. reflexivity.
Qed.

(** C2 (as amended): the builder clears the graph and registers the
    surface and the deep material before it looks at the mode, whatever the
    mode is.  For each of the three valid modes it returns normally and
    the volume node is added with the pair the design document gives:
    trilinear -> (surface, S), volume -> (deep, D),
    empty-skip -> (surface, E). *)
Theorem rebuild_selects_pair (P : Platform) (w : World) :
  PlatformOK P ->
  (forall shading : Z,
     let w' := world_of (RebuildOptixGraph P shading w) in
     optx_materials w' =
       [material (mat_surf1 (self w'))
          "optix_trace_surface" "trace_surface" "trace_shadow";
        material (mat_deep (self w'))
          "optix_trace_deep" "trace_deep" "trace_shadow"] /\
     firstn 6 (new_calls w w') =
       firstn 6 (rebuild_calls (mat_surf1 (self w')) (mat_deep (self w'))
                   (vol_atlas_glid w) (vol_world_min w) (vol_world_max w)
                   None None)) /\
  (forall m : ShadingMode,
     exists w',
       RebuildOptixGraph P (shade_code P m) w = Ok tt w' /\
       new_calls w w' =
         rebuild_calls (mat_surf1 (self w')) (mat_deep (self w'))
           (vol_atlas_glid w) (vol_world_min w) (vol_world_max w)
           (Some (fst (spec_pair m (mat_surf1 (self w')) (mat_deep (self w')))))
           (Some (snd (spec_pair m (mat_surf1 (self w')) (mat_deep (self w')))))).
Proof.
  intros OK. split.
  - intros shading.
    destruct (rebuild_run P shading w) as (w' & E & S & _ & Ms & C & _).
    rewrite E. cbn [world_of].
    rewrite S. cbn [mat_surf1 mat_deep set_mat_deep set_mat_surf1].
    split; [exact Ms|]. rewrite C. reflexivity.
  - intros m.
    destruct (rebuild_run P (shade_code P m) w) as (w' & E & S & _ & _ & C & _).
    exists w'. split; [exact E|].
    rewrite C, (shading_switch_valid P m (self w') OK).
    rewrite S. reflexivity.
Qed.

Lemma sample_platform_ok : PlatformOK sample_platform.
Proof. constructor; vm_compute; discriminate. Qed.

Lemma rebuild_selects_pair_witness :
  PlatformOK sample_platform /\
  exists w',
    RebuildOptixGraph sample_platform 7 blank_world = Ok tt w' /\
    new_calls blank_world w' =
      rebuild_calls 0 1 3 origin (V3i 1 1 1) (Some 1) (Some "D"%char).
Proof.
  split; [constructor; vm_compute; discriminate|].
  destruct (rebuild_selects_pair sample_platform blank_world)
    as [_ H]; [constructor; vm_compute; discriminate|].
  destruct (H Volume) as (w' & E & C).
  exists w'. split; [exact E|].
  rewrite C.
  assert (S : self w' = self (world_of (Ok tt w'))) by reflexivity.
  rewrite S, <- E. vm_compute. reflexivity.
Defined.

(** C2, as stated, fails: with the mode 0, which is none of the three
    valid values, the builder returns normally and has changed the graph:
    both materials are registered and a volume node is added, with a
    material id and a tag that no case of the [switch] has assigned. *)
Lemma rebuild_invalid_mode_counterexample :
  let r := RebuildOptixGraph sample_platform 0 blank_world in
  0 <> SHADE_TRILINEAR sample_platform /\
  0 <> SHADE_VOLUME sample_platform /\
  0 <> SHADE_EMPTYSKIP sample_platform /\
  returns r = true /\
  List.length (optx_materials (world_of r)) = 2%nat /\
  List.length (filter mutates_graph (new_calls blank_world (world_of r)))
    = 8%nat /\
  In (AddVolume_call 3 origin (V3i 1 1 1) None None)
    (new_calls blank_world (world_of r)).
Proof.
  vm_compute. repeat (split; [first [reflexivity | discriminate]|]). tauto.
Qed.

(** C3 (as amended): the builder leaves the accumulation state as it found
    it.  It always returns, frame and sample after the call are frame and
    sample before it, and every call it makes is made under those
    counters: the builder writes neither. *)
Theorem rebuild_keeps_counters (P : Platform) (shading : Z) (w : World) :
  exists w',
    RebuildOptixGraph P shading w = Ok tt w' /\
    counters w' = counters w /\
    Forall (fun e => (ev_frame e, ev_sample e) = counters w)
      (new_events w w').
Proof.
  destruct (rebuild_run P shading w) as (w' & E & S & _ & _ & _ & F).
  exists w'. split; [exact E|]. split; [|exact F].
  unfold counters. rewrite S. reflexivity.
Qed.

(** C3, as stated, fails: a rebuild started with the counters at (3, 7)
    ends with them at (3, 7), not at (3, 0). *)
Lemma rebuild_sample_counterexample :
  let w := with_counters 3 7 started in
  let r := RebuildOptixGraph sample_platform (m_shading (self w)) w in
  returns r = true /\
  counters (world_of r) = (3, 7) /\
  counters (world_of r) <> (frame (self w), 0).
Proof.
  vm_compute. repeat split; discriminate.
Qed.

(** ** Start-up *)

(** With the volume file on disk and readable, [init] returns [true] and
    leaves the members, the camera and the volume transform as lines
    148-155, 201 and 214-217 set them. *)
Lemma init_run (P : Platform) (w : World) (path : string) :
  env_vdb_path w = Some path ->
  env_vdb_loads w = true ->
  exists w', init P w = Ok true w' /\
    counters w' = (0, 0) /\
    max_samples (self w') = 1024 /\
    mouse_down (self w') = -1 /\
    m_render_optix (self w') = true /\
    m_shading (self w') = SHADE_VOLUME P /\
    m_translate (self w') = V3i (-200) 0 (-400) /\
    vol_xform w' =
      {| t_rotation := V3i 0 90 0; t_scale := V3d 0.25 0.25 0.25;
         t_center := V3i 0 0 0; t_translation := V3i (-200) 0 (-400) |} /\
    cam_ang (scn_camera w') = V3i (-20) 30 0.
Proof.
  open_world w. cbn [env_vdb_path env_vdb_loads]. intros -> ->.
  unfold init, RebuildOptixGraph. exec.
  eexists. repeat split; reflexivity.
Qed.

(** C8: from the state [init] leaves (frame = 0, sample = 0,
    max_samples = 1024), 1024 display ticks with nothing in between end
    with frame = 1 and sample = 0. *)
Theorem ticks_1024_after_init (P : Platform) (w : World) (path : string) :
  env_vdb_path w = Some path ->
  env_vdb_loads w = true ->
  exists w1 w2,
    init P w = Ok true w1 /\
    counters w1 = (0, 0) /\ max_samples (self w1) = 1024 /\
    ticks 1024 w1 = Ok tt w2 /\
    frame (self w2) = 1 /\ sample (self w2) = 0.
Proof.
  intros Hp Hl.
  destruct (init_run P w path Hp Hl) as (w1 & E & C & M & _).
  pose proof (counters_inv _ _ _ C) as [Cf Cs].
  destruct (ticks_to_rollover 1023 w1) as (w2 & E2 & C2).
  - rewrite Cs. vm_compute. split; discriminate.
  - rewrite M. vm_compute. split; discriminate.
  - rewrite Cf. vm_compute. split; discriminate.
  - rewrite Cf. reflexivity.
  - rewrite Cs, M. reflexivity.
  - exists w1, w2. rewrite Cf in C2. apply counters_inv in C2.
    repeat split; try assumption; apply C2.
Qed.

Lemma ticks_1024_after_init_witness :
  env_vdb_path blank_world
    = Some "../shared_assets/wdas_cloud_eighth.vdb"%string /\
  env_vdb_loads blank_world = true /\
  exists w1 w2,
    init sample_platform blank_world = Ok true w1 /\
    counters w1 = (0, 0) /\ max_samples (self w1) = 1024 /\
    ticks 1024 w1 = Ok tt w2 /\
    frame (self w2) = 1 /\ sample (self w2) = 0.
Proof.
  split; [reflexivity|]. split; [reflexivity|].
  apply (ticks_1024_after_init sample_platform blank_world
           "../shared_assets/wdas_cloud_eighth.vdb"%string); reflexivity.
Defined.

(** ** Resizing *)

(** C10: [reshape] returns with frame and sample as they were.  Of the
    members only the screen texture id is written; camera, light and
    volume transform are untouched; the calls made resize the screen
    texture, the GVDB render buffer and the OptiX output, and ask for a
    redraw. *)
Theorem reshape_keeps_counters (P : Platform) (w : World) (wd ht : Z) :
  exists w',
    reshape P wd ht w = Ok tt w' /\
    frame (self w') = frame (self w) /\
    sample (self w') = sample (self w) /\
    self w' =
      set_gl_screen_tex (screen_quad_tex P (gl_screen_tex (self w)) wd ht)
        (self w) /\
    same_scene w w' /\
    new_calls w w' =
      [{| callee := "glViewport";
          args := [AInt 0; AInt 0; AInt wd; AInt ht] |};
       {| callee := "createScreenQuadGL";
          args := [ARef "&gl_screen_tex"; AInt wd; AInt ht] |};
       {| callee := "gvdb.ResizeRenderBuf";
          args := [AInt 0; AInt wd; AInt ht; AInt 4] |}]
      ++ (if m_render_optix (self w)
          then [{| callee := "optx.ResizeOutput";
                   args := [AInt wd; AInt ht] |}]
          else [])
      ++ [postRedisplay_call].
Proof.
  open_world w. unfold reshape. exec.
  destruct m_render_optix0;
    eexists; (split; [reflexivity|]);
    do 3 (split; [reflexivity|]);
    (split; [repeat split|]);
    show_new_events; reflexivity.
Qed.

(** ** Mouse interaction *)

Ltac close_run :=
  eexists; (split; [reflexivity|]);
  repeat (split; [reflexivity|]);
  try (unfold redraw_requested; show_new_events); reflexivity.

(** A motion event with a button held always returns, with the sample
    counter at 0 and a redraw requested last; the button stays held and
    the frame counter and the modifier keys are as before. *)
Lemma motion_held (P : Platform) (w : World) (x y dx dy : Z) :
  button_held P w ->
  exists w',
    motion P x y dx dy w = Ok tt w' /\
    sample (self w') = 0 /\
    frame (self w') = frame (self w) /\
    mouse_down (self w') = mouse_down (self w) /\
    win_mods w' = win_mods w /\
    redraw_requested w w' = true.
Proof.
  open_world w. unfold button_held. cbn [self mouse_down]. intros H.
  unfold motion. exec.
  destruct (Z.eqb_spec mouse_down0 (MOUSE_BUTTON_LEFT P)) as [_|HL].
  { destruct (Z.land win_mods0 (KMOD_SHIFT P) =? 0); close_run. }
  destruct (Z.eqb_spec mouse_down0 (MOUSE_BUTTON_MIDDLE P)) as [_|HM].
  { close_run. }
  destruct (Z.eqb_spec mouse_down0 (MOUSE_BUTTON_RIGHT P)) as [_|HR].
  { destruct (Z.land win_mods0 (KMOD_SHIFT P) =? 0); close_run. }
  exfalso. tauto.
Qed.

(** C5: through any sequence of pointer-motion events delivered while a
    button is held (left, middle or right, any modifier keys), every event
    is processed to the end, and right after each one the sample counter
    is 0 and a redraw has been requested. *)
Theorem drag_resets_sample (P : Platform) (evs : list MotionEvent) :
  forall w,
    button_held P w ->
    List.length (drag P evs w) = List.length evs /\
    Forall (fun step =>
              returns (snd step) = true /\
              sample (self (world_of (snd step))) = 0 /\
              redraw_requested (fst step) (world_of (snd step)) = true)
           (drag P evs w).
Proof.
  induction evs as [|e evs IH]; intros w H.
  - split; [reflexivity | constructor].
  - cbn [drag]. unfold deliver.
    destruct (motion_held P (set_win_mods (me_mods e) w)
                (me_x e) (me_y e) (me_dx e) (me_dy e))
      as (w' & E & S & _ & D & _ & R).
    { destruct w; exact H. }
    rewrite E. cbn [returns world_of].
    destruct (IH w') as [L F].
    { unfold button_held in *. rewrite D. destruct w; exact H. }
    split.
    + cbn [List.length]. rewrite L. reflexivity.
    + constructor; [|exact F]. cbn [fst snd world_of returns].
      split; [reflexivity|]. split; [exact S|].
      destruct w; exact R.
Qed.

Lemma drag_resets_sample_witness :
  let w := holding 1 1 (with_counters 0 5 started) in
  let evs := [{| me_x := 10; me_y := 10; me_dx := 0; me_dy := 8; me_mods := 1 |};
              {| me_x := 12; me_y := 9; me_dx := 2; me_dy := -1; me_mods := 0 |}] in
  button_held sample_platform w /\
  List.length (drag sample_platform evs w) = 2%nat /\
  Forall (fun step =>
            returns (snd step) = true /\
            sample (self (world_of (snd step))) = 0 /\
            redraw_requested (fst step) (world_of (snd step)) = true)
         (drag sample_platform evs w).
Proof.
  intros w evs.
  assert (H : button_held sample_platform w) by (right; right; reflexivity).
  split; [exact H|].
  exact (drag_resets_sample sample_platform evs w H).
Defined.



(** C9: a motion event that arrives while no button is held
    ([mouse_down] = -1) changes nothing at all: members, camera, light,
    volume transform and counters are the same and no call is made.  A
    press event stores the pressed button in [mouse_down]; any other
    button event, a release in particular, stores -1. *)
Theorem idle_motion_is_noop (P : Platform) (idle w : World)
    (x y dx dy button state mods mx my : Z) :
  PlatformOK P ->
  mouse_down (self idle) = -1 ->
  state <> BUTTON_PRESS P ->
  motion P x y dx dy idle = Ok tt idle /\
  mouse P button (BUTTON_PRESS P) mods mx my w
    = Ok tt (set_self (set_mouse_down button (self w)) w) /\
  mouse P button state mods mx my w
    = Ok tt (set_self (set_mouse_down (-1) (self w)) w).
Proof.
  intros OK Hidle Hstate.
  destruct OK as [_ _ _ _ _ _ HL HM HR].
  split; [|split].
  - open_world idle. cbn [self mouse_down] in Hidle. subst mouse_down0.
    unfold motion. exec.
    destruct (Z.eqb_spec (-1) (MOUSE_BUTTON_LEFT P)); [congruence|].
    destruct (Z.eqb_spec (-1) (MOUSE_BUTTON_MIDDLE P)); [congruence|].
    destruct (Z.eqb_spec (-1) (MOUSE_BUTTON_RIGHT P)); [congruence|].
    reflexivity.
  - unfold mouse, assign. rewrite Z.eqb_refl. reflexivity.
  - unfold mouse, assign.
    destruct (Z.eqb_spec state (BUTTON_PRESS P)); [contradiction|].
    reflexivity.
Qed.

Lemma idle_motion_is_noop_witness :
  PlatformOK sample_platform /\
  mouse_down (self started) = -1 /\
  0 <> BUTTON_PRESS sample_platform /\
  motion sample_platform 5 6 10 (-5) started = Ok tt started /\
  mouse sample_platform 2 (BUTTON_PRESS sample_platform) 0 5 6 started
    = Ok tt (set_self (set_mouse_down 2 (self started)) started) /\
  mouse sample_platform 2 0 0 5 6 started
    = Ok tt (set_self (set_mouse_down (-1) (self started)) started).
Proof.
  assert (OK : PlatformOK sample_platform)
    by (constructor; vm_compute; discriminate).
  assert (Hi : mouse_down (self started) = -1) by (vm_compute; reflexivity).
  assert (Hs : 0 <> BUTTON_PRESS sample_platform)
    by (vm_compute; discriminate).
  split; [exact OK|]. split; [exact Hi|]. split; [exact Hs|].
  exact (idle_motion_is_noop sample_platform started started
           5 6 10 (-5) 2 0 0 5 6 OK Hi Hs).
Defined.

(** The transform a modifier drag sets: whatever the volume transform was,
    a left or right drag with the modifier held calls [SetTransform] with
    the first vector at (0, 0, 0) and the scale at (.25, .25, .25); only
    the last argument, [m_translate], carries state. *)
Lemma shift_drag_transform (P : Platform) (w : World) (x y dx dy : Z) :
  PlatformOK P ->
  mouse_down (self w) = MOUSE_BUTTON_LEFT P \/
  mouse_down (self w) = MOUSE_BUTTON_RIGHT P ->
  shift_held P w = true ->
  exists w',
    motion P x y dx dy w = Ok tt w' /\
    vol_xform w' =
      {| t_rotation := V3i 0 0 0; t_scale := V3d 0.25 0.25 0.25;
         t_center := V3i 0 0 0; t_translation := m_translate (self w') |} /\
    scn_camera w' = scn_camera w.
Proof.
  intros OK Hb. destruct OK as [_ _ _ HLM HLR HMR _ _ _].
  open_world w. unfold shift_held.
  cbn [self mouse_down win_mods] in *. intros Hs.
  unfold motion. exec.
  destruct (Z.land win_mods0 (KMOD_SHIFT P) =? 0); [discriminate Hs|].
  destruct Hb as [-> | ->].
  - rewrite Z.eqb_refl. eexists. repeat split; reflexivity.
  - destruct (Z.eqb_spec (MOUSE_BUTTON_RIGHT P) (MOUSE_BUTTON_LEFT P));
      [congruence|].
    destruct (Z.eqb_spec (MOUSE_BUTTON_RIGHT P) (MOUSE_BUTTON_MIDDLE P));
      [congruence|].
    rewrite Z.eqb_refl. eexists. repeat split; reflexivity.
Qed.

(** C4 (the code departs from it): [init] sets the volume transform with
    the rotation vector at (0, 90, 0).  The first motion event of a left
    drag with the modifier held, one pixel to the right, sets the
    transform again with that vector at (0, 0, 0): the drag does not pass
    the initial rotation.  Scale and centre are passed unchanged and the
    translation moves from (-200, 0, -400) to (-201, 0, -400).  A right
    drag with the modifier held, eight pixels down, replaces the rotation
    in the same way and moves the translation to (-200, 8, -400). *)
Theorem shift_drag_changes_rotation :
  let left := holding (MOUSE_BUTTON_LEFT sample_platform)
                (KMOD_SHIFT sample_platform) started in
  let right := holding (MOUSE_BUTTON_RIGHT sample_platform)
                 (KMOD_SHIFT sample_platform) started in
  let after_left := world_of (motion sample_platform 0 0 1 0 left) in
  let after_right := world_of (motion sample_platform 0 0 0 8 right) in
  vol_xform started =
    {| t_rotation := V3i 0 90 0; t_scale := V3d 0.25 0.25 0.25;
       t_center := V3i 0 0 0; t_translation := V3i (-200) 0 (-400) |} /\
  vol_xform after_left =
    {| t_rotation := V3i 0 0 0; t_scale := V3d 0.25 0.25 0.25;
       t_center := V3i 0 0 0; t_translation := V3i (-201) 0 (-400) |} /\
  vol_xform after_right =
    {| t_rotation := V3i 0 0 0; t_scale := V3d 0.25 0.25 0.25;
       t_center := V3i 0 0 0; t_translation := V3i (-200) 8 (-400) |} /\
  t_rotation (vol_xform after_left) <> t_rotation (vol_xform started) /\
  t_rotation (vol_xform after_right) <> t_rotation (vol_xform started).
Proof.
  vm_compute. repeat split; discriminate.
Qed.

(* ================================================================== *)
(** * Further properties of the callbacks *)

(** ** Recording calls *)

Lemma logged_nil (w : World) : logged [] w = w.
Proof.
  destruct w. unfold logged, set_trace. cbn. rewrite app_nil_r. reflexivity.
Qed.

Lemma logged_app (a b : list Call) (w : World) :
  logged b (logged a w) = logged (a ++ b) w.
Proof.
  destruct w. unfold logged, set_trace, stamp. cbn.
  rewrite map_app, app_assoc. reflexivity.
Qed.

Lemma call_logged (name : string) (a : list Arg) (w : World) :
  call name a w = Ok tt (logged [{| callee := name; args := a |}] w).
Proof. reflexivity. Qed.

Lemma new_calls_logged (cs : list Call) (w : World) :
  new_calls w (logged cs w) = cs.
Proof.
  unfold new_calls, new_events, logged. destruct w. cbn.
  rewrite skipn_length_app, map_map. cbn. apply map_id.
Qed.

Lemma logged_self (cs : list Call) (w : World) : self (logged cs w) = self w.
Proof. destruct w. reflexivity. Qed.

(** ** Start-up: what a missing or unreadable volume file does *)

Definition gerror_call : Call := {| callee := "gerror"; args := [] |}.

Lemma init_returns (P : Platform) (w : World) :
  returns (init P w) =
    match env_vdb_path w with
    | Some _ => env_vdb_loads w
    | None => false
    end.
Proof.
  open_world w. cbn [env_vdb_path env_vdb_loads].
  destruct env_vdb_path0; [destruct env_vdb_loads0|];
    unfold init, RebuildOptixGraph; exec; reflexivity.
Qed.


(** X2: when [init] does not return, the last call made is [gerror], and
    up to that point the volume transform has not been set, the camera
    has not been replaced and no call has touched the OptiX scene graph;
    if the file was not even found, [LoadVDB] has not been called. *)
Theorem init_failure_builds_nothing (P : Platform) (w : World) :
  returns (init P w) = false ->
  let w' := world_of (init P w) in
  (exists before, new_calls w w' = before ++ [gerror_call]) /\
  filter mutates_graph (new_calls w w') = [] /\
  first_call "gvdb.SetTransform" (new_calls w w') = None /\
  vol_xform w' = vol_xform w /\
  scn_camera w' = scn_camera w /\
  optx_materials w' = optx_materials w /\
  (env_vdb_path w = None ->
   first_call "gvdb.LoadVDB" (new_calls w w') = None).
Proof.
  rewrite init_returns.
  open_world w. cbn [env_vdb_path env_vdb_loads].
  destruct env_vdb_path0 as [path|]; [intros ->|intros _];
    unfold init; exec; show_new_events;
    (split;
     [match goal with
      | |- exists before, ?l = _ => exists (removelast l); reflexivity
      end|]);
    repeat (split; [reflexivity|]); intros H;
    first [discriminate H | reflexivity].
Qed.

Lemma init_failure_builds_nothing_witness :
  let w := {| self := blank_sample; win_width := 1024; win_height := 768;
              win_mods := 0; env_vdb_path := None; env_vdb_loads := true;
              scn_camera := blank_camera; scn_light := blank_camera;
              vol_xform := vol_xform blank_world;
              vol_world_min := origin; vol_world_max := V3i 1 1 1;
              vol_atlas_glid := 3; optx_materials := []; trace := [] |} in
  returns (init sample_platform w) = false /\
  filter mutates_graph (new_calls w (world_of (init sample_platform w))) = [] /\
  first_call "gvdb.LoadVDB"
    (new_calls w (world_of (init sample_platform w))) = None.
Proof.
  intros w.
  assert (H : returns (init sample_platform w) = false) by reflexivity.
  split; [exact H|].
  destruct (init_failure_builds_nothing sample_platform w H)
    as (_ & G & _ & _ & _ & _ & L).
  split; [exact G | exact (L eq_refl)].
Defined.

(** ** Start-up: what a successful [init] leaves *)

Lemma mat_id_with_params (id : Z) (p : MaterialParams) (m : Material) :
  mat_id (with_params id p m) = mat_id m.
Proof. unfold with_params. destruct (mat_id m =? id); reflexivity. Qed.

(** X3: a successful [init] ends with the calls of the graph builder in
    volumetric mode: both materials are registered and the volume node is
    added with the deep material and the tag D. *)
Theorem init_builds_volume_graph (P : Platform) (w : World) (path : string) :
  PlatformOK P ->
  env_vdb_path w = Some path ->
  env_vdb_loads w = true ->
  exists w' before,
    init P w = Ok true w' /\
    new_calls w w' =
      before ++
      rebuild_calls (material_id P 0) (material_id P 1)
        (vol_atlas_glid w) (vol_world_min w) (vol_world_max w)
        (Some (material_id P 1)) (Some "D"%char) /\
    Forall (fun c => mutates_graph c = false) before /\
    map mat_id (optx_materials w') = [material_id P 0; material_id P 1].
Proof.
  intros OK.
  open_world w. cbn [env_vdb_path env_vdb_loads]. intros -> ->.
  unfold init, RebuildOptixGraph. exec.
  eexists.
  match goal with
  | |- exists before, _ /\ new_calls ?a ?b = _ /\ _ =>
      exists (firstn 31 (new_calls a b))
  end.
  split; [reflexivity|].
  show_new_events. cbn [firstn].
  change (SHADE_VOLUME P) with (shade_code P Volume).
  rewrite (shading_switch_valid P Volume _ OK).
  cbn [spec_pair fst snd mat_deep].
  split; [reflexivity|].
  split; [repeat constructor|].
  cbn [optx_materials map app List.length].
  rewrite !mat_id_with_params. reflexivity.
Qed.

Lemma init_builds_volume_graph_witness :
  PlatformOK sample_platform /\
  env_vdb_path blank_world
    = Some "../shared_assets/wdas_cloud_eighth.vdb"%string /\
  env_vdb_loads blank_world = true /\
  exists w' before,
    init sample_platform blank_world = Ok true w' /\
    new_calls blank_world w' =
      before ++
      rebuild_calls 0 1 3 origin (V3i 1 1 1) (Some 1) (Some "D"%char) /\
    Forall (fun c => mutates_graph c = false) before /\
    map mat_id (optx_materials w') = [0; 1].
Proof.
  assert (OK : PlatformOK sample_platform)
    by (constructor; vm_compute; discriminate).
  split; [exact OK|]. split; [reflexivity|]. split; [reflexivity|].
  exact (init_builds_volume_graph sample_platform blank_world
           "../shared_assets/wdas_cloud_eighth.vdb"%string
           OK eq_refl eq_refl).
Defined.

(** X4: a successful [init] assigns every member of the object except
    [delta], whatever the object held before: the members afterwards
    depend only on the window size, the texture id GL hands out and the
    material ids, and [delta] is the one member carried over. *)
Theorem init_overwrites_members (P : Platform) (w : World) (path : string) :
  env_vdb_path w = Some path ->
  env_vdb_loads w = true ->
  exists w',
    init P w = Ok true w' /\
    self w' =
      {| gl_screen_tex :=
           screen_quad_tex P (-1) (win_width w) (win_height w);
         mouse_down := -1;
         delta := delta (self w);
         frame := 0;
         sample := 0;
         max_samples := 1024;
         m_shading := SHADE_VOLUME P;
         m_render_optix := true;
         m_translate := V3i (-200) 0 (-400);
         mat_surf1 := material_id P 0;
         mat_deep := material_id P 1 |}.
Proof.
  open_world w. cbn [env_vdb_path env_vdb_loads]. intros -> ->.
  unfold init, RebuildOptixGraph. exec.
  eexists. split; reflexivity.
Qed.

Lemma init_overwrites_members_witness :
  let w := holding 2 1 (with_counters 9 77 started) in
  env_vdb_path w = Some "../shared_assets/wdas_cloud_eighth.vdb"%string /\
  env_vdb_loads w = true /\
  exists w',
    init sample_platform w = Ok true w' /\
    counters w' = (0, 0) /\ mouse_down (self w') = -1.
Proof.
  intros w. split; [reflexivity|]. split; [reflexivity|].
  destruct (init_overwrites_members sample_platform w
              "../shared_assets/wdas_cloud_eighth.vdb"%string
              eq_refl eq_refl) as (w' & E & S).
  exists w'. split; [exact E|].
  unfold counters. rewrite S. split; reflexivity.
Defined.

(** ** The scene-graph builder, run again *)

(** The members and the material table after a rebuild do not depend on
    what they were before it. *)
Lemma rebuild_members (P : Platform) (shading : Z) (w : World) :
  exists w',
    RebuildOptixGraph P shading w = Ok tt w' /\
    self w' =
      set_mat_deep (material_id P 1)
        (set_mat_surf1 (material_id P 0) (self w)) /\
    optx_materials w' =
      [material (material_id P 0)
         "optix_trace_surface" "trace_surface" "trace_shadow";
       material (material_id P 1)
         "optix_trace_deep" "trace_deep" "trace_shadow"] /\
    vol_atlas_glid w' = vol_atlas_glid w /\
    vol_world_min w' = vol_world_min w /\
    vol_world_max w' = vol_world_max w /\
    new_calls w w' =
      rebuild_calls (material_id P 0) (material_id P 1)
        (vol_atlas_glid w) (vol_world_min w) (vol_world_max w)
        (fst (shading_switch P shading (self w')))
        (snd (shading_switch P shading (self w'))).
Proof.
  destruct (rebuild_run P shading w) as (w' & E & S & _ & Ms & C & _).
  exists w'. split; [exact E|]. split; [exact S|]. split; [exact Ms|].
  split; [|split; [|split; [|exact C]]];
    revert E; clear; open_world w; unfold RebuildOptixGraph; exec;
    intros E; injection E as <-; reflexivity.
Qed.

(** X5: the builder is idempotent on the three valid modes.  Run twice in
    a row with the same valid mode, the second run leaves the material
    ids of the object and the material table exactly as the first run left
    them (nothing is registered twice) and makes the same calls with the
    same arguments; in both runs the volume node is added with the
    material id that run obtained and the tag of the mode. *)
Theorem rebuild_twice_same_graph (P : Platform) (m : ShadingMode) (w : World) :
  PlatformOK P ->
  exists w1 w2,
    RebuildOptixGraph P (shade_code P m) w = Ok tt w1 /\
    RebuildOptixGraph P (shade_code P m) w1 = Ok tt w2 /\
    self w2 = self w1 /\
    optx_materials w2 = optx_materials w1 /\
    new_calls w1 w2 = new_calls w w1 /\
    new_calls w1 w2 =
      rebuild_calls (mat_surf1 (self w2)) (mat_deep (self w2))
        (vol_atlas_glid w) (vol_world_min w) (vol_world_max w)
        (Some (fst (spec_pair m (mat_surf1 (self w2)) (mat_deep (self w2)))))
        (Some (snd (spec_pair m (mat_surf1 (self w2)) (mat_deep (self w2))))) /\
    In (fst (spec_pair m (mat_surf1 (self w2)) (mat_deep (self w2))))
       (map mat_id (optx_materials w2)).
Proof.
  intros OK.
  destruct (rebuild_members P (shade_code P m) w)
    as (w1 & E1 & S1 & M1 & A1 & B1 & C1 & N1).
  destruct (rebuild_members P (shade_code P m) w1)
    as (w2 & E2 & S2 & M2 & A2 & B2 & C2 & N2).
  exists w1, w2. split; [exact E1|]. split; [exact E2|].
  assert (S : self w2 = self w1).
  { rewrite S2, S1. destruct (self w). reflexivity. }
  split; [exact S|]. split; [congruence|].
  split; [rewrite N2, N1, S, A1, B1, C1; reflexivity|].
  split.
  - rewrite N2, (shading_switch_valid P m (self w2) OK), A1, B1, C1.
    rewrite S2. reflexivity.
  - rewrite M2, S2. cbn [map mat_id material mat_surf1 mat_deep
                         set_mat_deep set_mat_surf1].
    destruct m; cbn [spec_pair fst]; cbn [In]; tauto.
Qed.

Lemma rebuild_twice_same_graph_witness :
  PlatformOK sample_platform /\
  exists w1 w2,
    RebuildOptixGraph sample_platform 4 started = Ok tt w1 /\
    RebuildOptixGraph sample_platform 4 w1 = Ok tt w2 /\
    self w2 = self w1 /\
    optx_materials w2 = optx_materials w1 /\
    new_calls w1 w2 = new_calls started w1.
Proof.
  assert (OK : PlatformOK sample_platform)
    by (constructor; vm_compute; discriminate).
  split; [exact OK|].
  destruct (rebuild_twice_same_graph sample_platform Trilinear started OK)
    as (w1 & w2 & E1 & E2 & S & M & N & _).
  exists w1, w2. repeat split; assumption.
Defined.

(** X6: the order the engine relies on holds in every rebuild, whatever
    the mode.  [ClearGraph] is the first call; both materials are
    registered before the volume node is added; the polygons are added
    after the volume; the transfer function is set before the graph is
    validated; and the volume data is synchronised only after
    validation. *)
Theorem rebuild_call_order (P : Platform) (shading : Z) (w : World) :
  let cs := new_calls w (world_of (RebuildOptixGraph P shading w)) in
  first_call "optx.ClearGraph" cs = Some 0%nat /\
  all_before "optx.AddMaterial" "optx.AddVolume" cs = true /\
  all_before "optx.SetMaterialParams" "optx.AddVolume" cs = true /\
  all_before "optx.AddVolume" "optx.AddPolygons" cs = true /\
  all_before "optx.AddPolygons" "optx.SetTransferFunc" cs = true /\
  all_before "optx.SetTransferFunc" "optx.ValidateGraph" cs = true /\
  all_before "optx.ValidateGraph" "optx.UpdateVolume" cs = true.
Proof.
  destruct (rebuild_members P shading w) as (w' & E & _ & _ & _ & _ & _ & N).
  rewrite E. cbn [world_of]. rewrite N.
  repeat split; reflexivity.
Qed.

(** ** More on the display tick *)

(** Everything a tick does, for either back end: the members it writes
    are [frame] and [sample], the rest of the world is as before. *)
Lemma display_frame (w : World) :
  exists w',
    display w = Ok tt w' /\
    self w' =
      set_sample (snd (counters w')) (set_frame (fst (counters w')) (self w)) /\
    same_scene w w' /\
    optx_materials w' = optx_materials w /\
    counters w' =
      (if Int32.incr (sample (self w)) <? max_samples (self w)
       then (frame (self w), Int32.incr (sample (self w)))
       else (Int32.incr (frame (self w)), 0)).
Proof.
  open_world w. unfold display. exec.
  destruct m_render_optix0;
    destruct (Int32.incr sample0 <? max_samples0);
    eexists; (split; [reflexivity|]); (split; [reflexivity|]);
    (split; [repeat split|]); split; reflexivity.
Qed.

(** X7: a tick always asks for the next one.  Whatever the back end and
    whether or not the sample budget is reached, [display] returns and the
    last thing it does is [postRedisplay]; while the budget is not reached
    it asks twice. *)
Theorem display_always_requests_redraw (w : World) :
  exists w',
    display w = Ok tt w' /\
    redraw_requested w w' = true /\
    List.length (filter (fun c => String.eqb (callee c) "postRedisplay")
                   (new_calls w w'))
      = (if Int32.incr (sample (self w)) <? max_samples (self w)
         then 2%nat else 1%nat).
Proof.
  open_world w. unfold display. exec.
  destruct m_render_optix0;
    destruct (Int32.incr sample0 <? max_samples0);
    eexists; (split; [reflexivity|]);
    unfold redraw_requested; show_new_events; split; reflexivity.
Qed.

(** X8: a tick dispatches exactly one render, on the back end
    [m_render_optix] selects, and does not touch the other one: with the
    OptiX back end no call into gvdb is made, with the gvdb rasteriser no
    call into optx is made, [SetSample] included. *)
Theorem display_renders_once (w : World) :
  exists w',
    display w = Ok tt w' /\
    filter is_render (new_calls w w') =
      (if m_render_optix (self w)
       then [Render_call (m_shading (self w))]
       else [{| callee := "gvdb.Render";
                args := [AInt (m_shading (self w)); AInt 0; AInt 0] |}]) /\
    filter (if m_render_optix (self w) then on_gvdb else on_optx)
      (new_calls w w') = [].
Proof.
  open_world w. unfold display. exec.
  destruct m_render_optix0;
    destruct (Int32.incr sample0 <? max_samples0);
    eexists; (split; [reflexivity|]);
    show_new_events; split; reflexivity.
Qed.

(** X9: where the counters stand after any number of ticks.  Starting
    within the budget, n ticks take the sample counter to
    (sample + n) mod max_samples and the frame counter up by
    (sample + n) / max_samples, as long as that stays an [int]. *)
Theorem ticks_counters (n : nat) :
  forall w,
    0 <= sample (self w) < max_samples (self w) ->
    max_samples (self w) <= Int32.max_signed ->
    Int32.in_range (frame (self w)) ->
    frame (self w) + (sample (self w) + Z.of_nat n) / max_samples (self w)
      <= Int32.max_signed ->
    exists w',
      ticks n w = Ok tt w' /\
      counters w' =
        (frame (self w) + (sample (self w) + Z.of_nat n) / max_samples (self w),
         (sample (self w) + Z.of_nat n) mod max_samples (self w)) /\
      max_samples (self w') = max_samples (self w).
Proof.
  induction n as [|n IH]; intros w Hs Hm Hf Hb.
  - exists w. split; [reflexivity|]. split; [|reflexivity].
    rewrite Z.add_0_r, Z.div_small, Z.mod_small by lia.
    rewrite Z.add_0_r. reflexivity.
  - destruct (display_run w) as (w1 & E & C & M).
    assert (R : Int32.incr (sample (self w)) = sample (self w) + 1).
    { apply Int32_incr_small; unfold Int32.in_range, Int32.min_signed,
        Int32.max_signed in *; lia. }
    rewrite R in C.
    change (ticks (S n) w) with (bind display (fun _ => ticks n) w).
    unfold bind. rewrite E.
    set (m := max_samples (self w)) in *.
    set (s := sample (self w)) in *.
    set (f := frame (self w)) in *.
    replace (s + Z.of_nat (S n)) with (s + 1 + Z.of_nat n) in * by lia.
    destruct (Z.ltb_spec (s + 1) m) as [Hlt|Hge];
      apply counters_inv in C; destruct C as [Cf Cs].
    + destruct (IH w1) as (w2 & E2 & C2 & M2).
      * rewrite Cs, M. lia.
      * rewrite M. exact Hm.
      * rewrite Cf. exact Hf.
      * rewrite Cf, Cs, M. exact Hb.
      * exists w2. split; [exact E2|]. rewrite C2, Cf, Cs, M2, M.
        split; reflexivity.
    + assert (Hsm : s + 1 = m) by lia.
      assert (Hd : (s + 1 + Z.of_nat n) / m = 1 + Z.of_nat n / m).
      { rewrite Hsm. replace (m + Z.of_nat n) with (Z.of_nat n + 1 * m) by lia.
        rewrite Z.div_add by lia. lia. }
      assert (Hmod : (s + 1 + Z.of_nat n) mod m = Z.of_nat n mod m).
      { rewrite Hsm. replace (m + Z.of_nat n) with (Z.of_nat n + 1 * m) by lia.
        apply Z.mod_add. lia. }
      assert (Hq : 0 <= Z.of_nat n / m) by (apply Z.div_pos; lia).
      rewrite Hd in Hb.
      assert (Ri : Int32.incr f = f + 1).
      { apply Int32_incr_small; [exact Hf | lia]. }
      rewrite Ri in Cf.
      destruct (IH w1) as (w2 & E2 & C2 & M2).
      * rewrite Cs, M. lia.
      * rewrite M. exact Hm.
      * rewrite Cf. unfold Int32.in_range, Int32.min_signed,
          Int32.max_signed in *. lia.
      * rewrite Cf, Cs, M. rewrite Z.add_0_l. fold m. lia.
      * exists w2. split; [exact E2|]. rewrite C2, Cf, Cs, M2, M.
        fold m. rewrite Z.add_0_l, Hd, Hmod.
        split; [f_equal; lia | reflexivity].
Qed.

Lemma ticks_counters_witness :
  0 <= sample (self started) < max_samples (self started) /\
  max_samples (self started) <= Int32.max_signed /\
  Int32.in_range (frame (self started)) /\
  frame (self started) + (sample (self started) + Z.of_nat 3000)
                         / max_samples (self started) <= Int32.max_signed /\
  exists w',
    ticks 3000 started = Ok tt w' /\ counters w' = (2, 952).
Proof.
  assert (H1 : 0 <= sample (self started) < max_samples (self started))
    by (vm_compute; split; [discriminate | reflexivity]).
  assert (H2 : max_samples (self started) <= Int32.max_signed)
    by (vm_compute; discriminate).
  assert (H3 : Int32.in_range (frame (self started)))
    by (vm_compute; split; discriminate).
  assert (H4 : frame (self started) + (sample (self started) + Z.of_nat 3000)
                 / max_samples (self started) <= Int32.max_signed)
    by (vm_compute; discriminate).
  repeat (split; [assumption|]).
  destruct (ticks_counters 3000 started H1 H2 H3 H4) as (w' & E & C & _).
  exists w'. split; [exact E|]. rewrite C. vm_compute. reflexivity.
Defined.

(** ** More on mouse interaction *)

Lemma motion_all_cases (P : Platform) (w : World) (x y dx dy : Z) :
  exists w',
    motion P x y dx dy w = Ok tt w' /\
    scn_light w' = scn_light w /\
    frame (self w') = frame (self w) /\
    mouse_down (self w') = mouse_down (self w) /\
    gl_screen_tex (self w') = gl_screen_tex (self w) /\
    settings w' = settings w /\
    win_mods w' = win_mods w /\
    (sample (self w') = 0 \/ w' = w).
Proof.
  open_world w. unfold motion. exec.
  destruct (mouse_down0 =? MOUSE_BUTTON_LEFT P);
    [|destruct (mouse_down0 =? MOUSE_BUTTON_MIDDLE P);
      [|destruct (mouse_down0 =? MOUSE_BUTTON_RIGHT P)]];
    try destruct (Z.land win_mods0 (KMOD_SHIFT P) =? 0);
    eexists; (split; [reflexivity|]);
    repeat (split; [reflexivity|]);
    first [left; reflexivity | right; reflexivity].
Qed.

(** X10: no pointer event ever reaches the light, the frame counter, the
    button state or what [init] chose (sample budget, shading mode, back
    end, material ids, material table): in any state and for any
    arguments [motion] returns with all of them as before, and it either
    resets the sample counter to 0 or changes nothing at all. *)
Theorem motion_never_touches (P : Platform) (w : World) (x y dx dy : Z) :
  exists w',
    motion P x y dx dy w = Ok tt w' /\
    scn_light w' = scn_light w /\
    frame (self w') = frame (self w) /\
    mouse_down (self w') = mouse_down (self w) /\
    gl_screen_tex (self w') = gl_screen_tex (self w) /\
    settings w' = settings w /\
    win_mods w' = win_mods w /\
    (sample (self w') = 0 \/ w' = w).
Proof. exact (motion_all_cases P w x y dx dy). Qed.

(** X11: without the modifier key no drag moves the volume.  Whatever
    button is held, a motion event with the modifier off leaves the volume
    transform and [m_translate] as they were and makes no [SetTransform]
    call. *)
Theorem camera_drag_keeps_volume (P : Platform) (w : World) (x y dx dy : Z) :
  shift_held P w = false ->
  exists w',
    motion P x y dx dy w = Ok tt w' /\
    vol_xform w' = vol_xform w /\
    m_translate (self w') = m_translate (self w) /\
    first_call "gvdb.SetTransform" (new_calls w w') = None.
Proof.
  open_world w. unfold shift_held. cbn [win_mods]. intros Hs.
  unfold motion. exec.
  destruct (Z.land win_mods0 (KMOD_SHIFT P) =? 0); [|discriminate Hs].
  destruct (mouse_down0 =? MOUSE_BUTTON_LEFT P);
    [|destruct (mouse_down0 =? MOUSE_BUTTON_MIDDLE P);
      [|destruct (mouse_down0 =? MOUSE_BUTTON_RIGHT P)]];
    eexists; (split; [reflexivity|]);
    repeat (split; [reflexivity|]);
    first [show_new_events; reflexivity
          | unfold new_calls, new_events; cbv beta iota delta [trace];
            rewrite skipn_all; reflexivity].
Qed.

Lemma camera_drag_keeps_volume_witness :
  let w := holding 1 0 started in
  shift_held sample_platform w = false /\
  exists w',
    motion sample_platform 3 4 0 8 w = Ok tt w' /\
    vol_xform w' = vol_xform w /\
    m_translate (self w') = m_translate (self w) /\
    first_call "gvdb.SetTransform" (new_calls w w') = None.
Proof.
  intros w. split; [reflexivity|].
  exact (camera_drag_keeps_volume sample_platform w 3 4 0 8 eq_refl).
Defined.

(** X12: with the modifier key held, a drag with the left or the right
    button moves the volume and nothing of the camera: the camera and
    [delta] are as before, and the transform is set with the current
    [m_translate] as its translation.  (The middle button is the one that
    pans the camera whatever the modifier.) *)
Theorem volume_drag_keeps_camera (P : Platform) (w : World) (x y dx dy : Z) :
  shift_held P w = true ->
  mouse_down (self w) <> MOUSE_BUTTON_MIDDLE P ->
  exists w',
    motion P x y dx dy w = Ok tt w' /\
    scn_camera w' = scn_camera w /\
    delta (self w') = delta (self w) /\
    (w' = w \/ t_translation (vol_xform w') = m_translate (self w')).
Proof.
  open_world w. unfold shift_held. cbn [self mouse_down win_mods].
  intros Hs Hm.
  unfold motion. exec.
  destruct (Z.land win_mods0 (KMOD_SHIFT P) =? 0); [discriminate Hs|].
  destruct (mouse_down0 =? MOUSE_BUTTON_LEFT P);
    [|destruct (Z.eqb_spec mouse_down0 (MOUSE_BUTTON_MIDDLE P));
      [contradiction|destruct (mouse_down0 =? MOUSE_BUTTON_RIGHT P)]];
    eexists; (split; [reflexivity|]);
    repeat (split; [reflexivity|]);
    first [left; reflexivity | right; reflexivity].
Qed.

Lemma volume_drag_keeps_camera_witness :
  let w := holding 0 1 started in
  shift_held sample_platform w = true /\
  mouse_down (self w) <> MOUSE_BUTTON_MIDDLE sample_platform /\
  exists w',
    motion sample_platform 3 4 5 6 w = Ok tt w' /\
    scn_camera w' = scn_camera w /\
    delta (self w') = delta (self w) /\
    (w' = w \/ t_translation (vol_xform w') = m_translate (self w')).
Proof.
  intros w.
  assert (Hm : mouse_down (self w) <> MOUSE_BUTTON_MIDDLE sample_platform)
    by (vm_compute; discriminate).
  split; [reflexivity|]. split; [exact Hm|].
  exact (volume_drag_keeps_camera sample_platform w 3 4 5 6 eq_refl Hm).
Defined.

(** X13: the middle button ignores the modifier key.  With the middle
    button held, the same motion event delivered with two different sets
    of modifier keys leaves the same object and the same camera, and makes
    the same calls. *)
Theorem middle_drag_ignores_modifier (P : Platform) (w : World)
    (x y dx dy m1 m2 : Z) :
  PlatformOK P ->
  mouse_down (self w) = MOUSE_BUTTON_MIDDLE P ->
  let r1 := world_of (motion P x y dx dy (set_win_mods m1 w)) in
  let r2 := world_of (motion P x y dx dy (set_win_mods m2 w)) in
  self r1 = self r2 /\
  scn_camera r1 = scn_camera r2 /\
  vol_xform r1 = vol_xform r2 /\
  new_calls w r1 = new_calls w r2 /\
  scn_camera r1 =
    moveRelative P
      (F32.div (F32.mul (F32.of_int dx) (cam_orbit_dist (scn_camera w)))
         (F32.of_int 1000))
      (F32.div (F32.mul (F32.of_int (Int32.neg dy))
                  (cam_orbit_dist (scn_camera w)))
         (F32.of_int 1000))
      (F32.of_int 0) (scn_camera w).
Proof.
  intros OK. destruct OK as [_ _ _ HLM _ _ _ _ _].
  open_world w. cbn [self mouse_down]. intros ->.
  unfold motion, set_win_mods. exec.
  destruct (Z.eqb_spec (MOUSE_BUTTON_MIDDLE P) (MOUSE_BUTTON_LEFT P));
    [congruence|].
  rewrite Z.eqb_refl.
  repeat split; reflexivity.
Qed.

Lemma middle_drag_ignores_modifier_witness :
  let w := holding 2 0 started in
  PlatformOK sample_platform /\
  mouse_down (self w) = MOUSE_BUTTON_MIDDLE sample_platform /\
  self (world_of (motion sample_platform 1 2 30 40 (set_win_mods 0 w)))
    = self (world_of (motion sample_platform 1 2 30 40 (set_win_mods 1 w))) /\
  scn_camera (world_of (motion sample_platform 1 2 30 40 (set_win_mods 0 w)))
    = scn_camera
        (world_of (motion sample_platform 1 2 30 40 (set_win_mods 1 w))).
Proof.
  intros w.
  assert (OK : PlatformOK sample_platform)
    by (constructor; vm_compute; discriminate).
  split; [exact OK|]. split; [reflexivity|].
  destruct (middle_drag_ignores_modifier sample_platform w 1 2 30 40 0 1
              OK eq_refl) as (S & C & _).
  split; [exact S | exact C].
Defined.

(** ** Whole numbers in single precision

    Integers of magnitude below 2^24 are [float]s, and sums and
    differences of such integers that stay below 2^24 are computed without
    rounding. *)

Lemma Qred_int (z : Z) : Qred (z # 1) = z # 1.
Proof.
  unfold Qred.
  pose proof (Z.ggcd_gcd z 1) as G.
  pose proof (Z.ggcd_correct_divisors z 1) as D.
  destruct (Z.ggcd z 1) as [g [aa bb]]. cbn [fst snd] in *.
  rewrite Z.gcd_1_r in G. subst g. destruct D as [Da Db].
  rewrite Z.mul_1_l in Da, Db. subst aa bb. reflexivity.
Qed.

Lemma nearest_even_whole (n : Z) : Fp.nearest_even n 1 = n.
Proof.
  unfold Fp.nearest_even. rewrite Z.div_1_r, Z.mod_1_r. reflexivity.
Qed.

Lemma round_mag_small (a : Z) :
  0 < a < 2 ^ 24 ->
  exists k, 0 <= k <= 23 /\ Fp.round_mag Fp.binary32 a 1 = (a * 2 ^ k, - k).
Proof.
  intros [Hpos Hlt].
  pose proof (Z.log2_spec a Hpos) as [Hlo Hhi].
  pose proof (Z.log2_nonneg a) as Hnn.
  assert (Hla : Z.log2 a < 24) by (apply Z.log2_lt_pow2; assumption).
  set (la := Z.log2 a) in *.
  exists (23 - la). split; [lia|].
  unfold Fp.round_mag.
  change (Fp.prec Fp.binary32) with 24.
  change (Fp.emin Fp.binary32) with (-149).
  rewrite Z.log2_1. fold la.
  replace (la - 0 - 24) with (la - 24) by lia.
  unfold Fp.scaled at 1.
  destruct (Z.leb_spec 0 (la - 24)) as [H|_]; [lia|].
  assert (Hge : 2 ^ 24 * 1 <= a * 2 ^ (- (la - 24))).
  { replace (- (la - 24)) with (24 - la) by lia.
    replace (2 ^ 24 * 1) with (2 ^ la * 2 ^ (24 - la)).
    - apply Z.mul_le_mono_nonneg_r; [apply Z.pow_nonneg; lia | exact Hlo].
    - rewrite <- Z.pow_add_r by lia. replace (la + (24 - la)) with 24 by lia.
      lia. }
  destruct (Z.leb_spec (2 ^ 24 * 1) (a * 2 ^ (- (la - 24)))) as [_|H]; [|lia].
  rewrite Z.max_l by lia.
  unfold Fp.scaled.
  destruct (Z.leb_spec 0 (la - 24 + 1)) as [H|H].
  - assert (Hl : la = 23) by lia. rewrite Hl.
    change (1 * 2 ^ (23 - 24 + 1)) with 1.
    rewrite nearest_even_whole.
    change (2 ^ (23 - 23)) with 1. rewrite Z.mul_1_r. reflexivity.
  - rewrite nearest_even_whole.
    replace (- (la - 24 + 1)) with (23 - la) by lia.
    f_equal. lia.
Qed.

Lemma round_int (n : Z) :
  Z.abs n < 2 ^ 24 -> Fp.round Fp.binary32 (n # 1) = Fp.Fin (n # 1).
Proof.
  intros Hn. unfold Fp.round. cbn [Qnum Qden].
  destruct (Z.eqb_spec n 0) as [->|Hnz]; [reflexivity|].
  destruct (round_mag_small (Z.abs n)) as (k & Hk & E); [lia|].
  rewrite E.
  rewrite Z.max_r by lia. change (2 ^ 0) with 1. rewrite Z.mul_1_r.
  assert (Hp : 0 < 2 ^ k) by (apply Z.pow_pos_nonneg; lia).
  assert (Hb : Z.abs n * 2 ^ k < 2 ^ 24 * 2 ^ 23).
  { assert (2 ^ k <= 2 ^ 23) by (apply Z.pow_le_mono_r; lia).
    apply Z.le_lt_trans with (Z.abs n * 2 ^ 23).
    - apply Z.mul_le_mono_nonneg_l; lia.
    - apply Z.mul_lt_mono_pos_r; lia. }
  change (Fp.emax Fp.binary32) with 128.
  destruct (Z.leb_spec (2 ^ 128) (Z.abs n * 2 ^ k)) as [H|_]; [lia|].
  assert (SA : Z.sgn n * Z.abs n = n) by (destruct n; reflexivity).
  f_equal. rewrite <- (Qred_int n). apply Qred_complete.
  unfold Fp.pow2Q, Qeq, Qmult, inject_Z.
  destruct (Z.leb_spec 0 (- k)) as [H|H]; cbn [Qnum Qden].
  - assert (k = 0) by lia. subst k.
    change (2 ^ (- 0)) with 1. change (2 ^ 0) with 1.
    rewrite !Z.mul_1_r. rewrite SA. reflexivity.
  - rewrite Z.opp_involutive.
    rewrite Pos2Z.inj_mul, Z2Pos.id by exact Hp.
    rewrite Z.mul_assoc, SA. ring.
Qed.

Lemma F32_of_int_exact (n : Z) :
  Z.abs n < 2 ^ 24 -> F32.of_int n = Fp.Fin (n # 1).
Proof. intros H. exact (round_int n H). Qed.

Lemma F32_add_int (a b : Z) :
  Z.abs (a + b) < 2 ^ 24 ->
  F32.add (Fp.Fin (a # 1)) (Fp.Fin (b # 1)) = Fp.Fin ((a + b) # 1).
Proof.
  intros H. unfold F32.add, Fp.add.
  replace (Fp.round Fp.binary32 ((a # 1) + (b # 1)))
    with (Fp.round Fp.binary32 ((a + b) # 1)).
  - apply round_int. exact H.
  - unfold Fp.round, Qplus. cbn [Qnum Qden]. rewrite !Z.mul_1_r.
    reflexivity.
Qed.

Lemma F32_sub_int (a b : Z) :
  Z.abs (a - b) < 2 ^ 24 ->
  F32.sub (Fp.Fin (a # 1)) (Fp.Fin (b # 1)) = Fp.Fin ((a - b) # 1).
Proof.
  intros H. unfold F32.sub, Fp.sub, Fp.opp.
  change (- (b # 1))%Q with ((- b) # 1). rewrite Qred_int.
  apply (F32_add_int a (- b)). exact H.
Qed.

(** ** Drags that accumulate without rounding *)

Lemma abs_travel_nonneg (f : MotionEvent -> Z) (evs : list MotionEvent) :
  0 <= abs_travel f evs.
Proof.
  induction evs as [|e evs IH]; [reflexivity|].
  unfold abs_travel in *. cbn [map fold_right]. lia.
Qed.






Lemma F32_sub_int_of (a b : Z) :
  Z.abs a + Z.abs b < 2 ^ 24 ->
  F32.sub (F32.of_int a) (F32.of_int b) = F32.of_int (a - b).
Proof.
  intros H. rewrite !F32_of_int_exact by lia. apply F32_sub_int. lia.
Qed.




(** One right-button motion event without the modifier, on a
    whole-number orbit distance. *)
Lemma right_plain_step (P : Platform) (w : World) (x y dx dy d : Z) :
  PlatformOK P ->
  mouse_down (self w) = MOUSE_BUTTON_RIGHT P ->
  shift_held P w = false ->
  cam_orbit_dist (scn_camera w) = F32.of_int d ->
  Z.abs d + Z.abs dy < 2 ^ 24 ->
  exists w',
    motion P x y dx dy w = Ok tt w' /\
    mouse_down (self w') = mouse_down (self w) /\
    scn_camera w' =
      setOrbit (cam_ang (scn_camera w)) (cam_to_pos (scn_camera w))
        (F32.of_int (d - dy)) (cam_dolly (scn_camera w)) (scn_camera w).
Proof.
  intros OK. destruct OK as [_ _ _ _ HLR HMR _ _ _].
  open_world w. destruct scn_camera0 as [cf ca ct cd cy].
  unfold shift_held.
  cbn [self mouse_down win_mods scn_camera
       cam_orbit_dist cam_ang cam_to_pos cam_dolly].
  intros -> Hs -> Hd.
  unfold motion. exec.
  destruct (Z.eqb_spec (MOUSE_BUTTON_RIGHT P) (MOUSE_BUTTON_LEFT P));
    [congruence|].
  destruct (Z.eqb_spec (MOUSE_BUTTON_RIGHT P) (MOUSE_BUTTON_MIDDLE P));
    [congruence|].
  rewrite Z.eqb_refl.
  destruct (Z.land win_mods0 (KMOD_SHIFT P) =? 0); [|discriminate Hs].
  eexists. split; [reflexivity|].
  cbn [cam_orbit_dist cam_ang cam_to_pos cam_dolly].
  rewrite F32_sub_int_of by lia.
  repeat split; reflexivity.
Qed.

(** X16: a right drag without the modifier changes the orbit distance by
    exactly the vertical pointer travel and nothing else of the camera.
    If the distance is a whole number d and the travel keeps it below 2^24
    in magnitude, then after the events it is d - sum of dy, with angles,
    target, dolly and field of view as before. *)
Theorem right_drag_distance_exact (P : Platform) (evs : list MotionEvent) :
  forall (w : World) (d : Z),
    PlatformOK P ->
    mouse_down (self w) = MOUSE_BUTTON_RIGHT P ->
    Forall (fun e => Z.land (me_mods e) (KMOD_SHIFT P) = 0) evs ->
    cam_orbit_dist (scn_camera w) = F32.of_int d ->
    Z.abs d + abs_travel me_dy evs < 2 ^ 24 ->
    exists w',
      session P (map Move evs) w = Ok tt w' /\
      scn_camera w' =
        setOrbit (cam_ang (scn_camera w)) (cam_to_pos (scn_camera w))
          (F32.of_int (d - travel me_dy evs)) (cam_dolly (scn_camera w))
          (scn_camera w).
Proof.
  induction evs as [|e evs IH]; intros w d OK Hb Hsh Hd Hbound.
  - exists w. split; [reflexivity|].
    unfold travel. cbn [map fold_right]. rewrite Z.sub_0_r.
    destruct (scn_camera w). cbn [cam_orbit_dist] in *. subst.
    reflexivity.
  - inversion Hsh as [|e' evs' He Hrest]; subst.
    pose proof (abs_travel_nonneg me_dy evs) as Ny.
    unfold abs_travel in Hbound, Ny. cbn [map fold_right] in Hbound.
    destruct (right_plain_step P (set_win_mods (me_mods e) w)
                (me_x e) (me_y e) (me_dx e) (me_dy e) d OK)
      as (w1 & E & D & C).
    + destruct w; exact Hb.
    + destruct w. unfold shift_held. cbn [set_win_mods win_mods].
      rewrite He. reflexivity.
    + destruct w; exact Hd.
    + lia.
    + destruct (IH w1 (d - me_dy e) OK) as (w2 & E2 & C2).
      * rewrite D. destruct w; exact Hb.
      * exact Hrest.
      * rewrite C. reflexivity.
      * unfold abs_travel. lia.
      * exists w2. split.
        { cbn [map session handle]. unfold bind, deliver. rewrite E.
          exact E2. }
        rewrite C2, C. unfold travel. cbn [map fold_right].
        destruct w. cbn [set_win_mods scn_camera].
        unfold setOrbit.
        cbn [cam_fov cam_ang cam_to_pos cam_orbit_dist cam_dolly].
        f_equal. f_equal. lia.
Qed.

Lemma right_drag_distance_exact_witness :
  let w := holding 1 0 started in
  let evs := [{| me_x := 0; me_y := 0; me_dx := 3; me_dy := 40; me_mods := 0 |};
              {| me_x := 3; me_y := 40; me_dx := 0; me_dy := -15; me_mods := 2 |}] in
  PlatformOK sample_platform /\
  mouse_down (self w) = MOUSE_BUTTON_RIGHT sample_platform /\
  Forall (fun e => Z.land (me_mods e) (KMOD_SHIFT sample_platform) = 0) evs /\
  Z.abs 500 + abs_travel me_dy evs < 2 ^ 24 /\
  exists w',
    session sample_platform (map Move evs) w = Ok tt w' /\
    cam_orbit_dist (scn_camera w') = F32.of_int 475 /\
    cam_ang (scn_camera w') = V3i (-20) 30 0.
Proof.
  intros w evs.
  assert (OK : PlatformOK sample_platform)
    by (constructor; vm_compute; discriminate).
  assert (Hs : Forall (fun e => Z.land (me_mods e)
                                  (KMOD_SHIFT sample_platform) = 0) evs)
    by (repeat constructor).
  assert (Hb : Z.abs 500 + abs_travel me_dy evs < 2 ^ 24) by reflexivity.
  split; [exact OK|]. split; [reflexivity|]. split; [exact Hs|].
  split; [exact Hb|].
  destruct (right_drag_distance_exact sample_platform evs w 500
              OK eq_refl Hs eq_refl Hb) as (w' & E & C).
  exists w'. split; [exact E|]. rewrite C. split; reflexivity.
Defined.

(** ** Gestures and sessions *)

(** What [motion] leaves alone, in any state. *)
Lemma motion_frame (P : Platform) (w : World) (x y dx dy : Z) :
  exists w',
    motion P x y dx dy w = Ok tt w' /\
    scn_light w' = scn_light w /\
    frame (self w') = frame (self w) /\
    settings w' = settings w /\
    (sample (self w') = 0 \/ w' = w).
Proof.
  destruct (motion_all_cases P w x y dx dy)
    as (w' & E & L & F & _ & _ & S & _ & R).
  exists w'. repeat split; assumption.
Qed.

(** X17: an interaction restarts the accumulation at sample 0 on the very
    next tick.  After a motion event with a button held, the next tick
    with the OptiX back end opens by telling the back end the pair
    (frame, 0), with the frame unchanged by the interaction. *)
Theorem drag_then_tick_restarts (P : Platform) (w : World) (x y dx dy : Z) :
  button_held P w ->
  m_render_optix (self w) = true ->
  exists w1 w2,
    motion P x y dx dy w = Ok tt w1 /\
    display w1 = Ok tt w2 /\
    hd_error (new_events w1 w2) =
      Some (at_counters (SetSample_call (frame (self w)) 0)
              (frame (self w), 0)) /\
    counters w2 =
      (if 1 <? max_samples (self w)
       then (frame (self w), 1)
       else (Int32.incr (frame (self w)), 0)).
Proof.
  intros Hb Ho.
  destruct (motion_held P w x y dx dy Hb) as (w1 & E1 & S1 & F1 & _).
  destruct (motion_frame P w x y dx dy) as (w1' & E1' & _ & _ & St & _).
  rewrite E1 in E1'. injection E1' as <-.
  assert (Ho1 : m_render_optix (self w1) = true).
  { unfold settings in St. injection St as _ _ H _ _ _. congruence. }
  assert (Hm1 : max_samples (self w1) = max_samples (self w)).
  { unfold settings in St. injection St as H _ _ _ _ _. exact H. }
  destruct (display_events w1 Ho1) as (w2 & E2 & N2).
  destruct (display_run w1) as (w2' & E2' & C2 & _).
  rewrite E2 in E2'. injection E2' as <-.
  exists w1, w2. split; [exact E1|]. split; [exact E2|].
  split.
  - rewrite N2. unfold counters. rewrite S1, F1. reflexivity.
  - rewrite C2, S1, F1, Hm1. reflexivity.
Qed.

Lemma drag_then_tick_restarts_witness :
  let w := holding 0 0 (with_counters 4 321 started) in
  button_held sample_platform w /\
  m_render_optix (self w) = true /\
  exists w1 w2,
    motion sample_platform 0 0 10 (-5) w = Ok tt w1 /\
    display w1 = Ok tt w2 /\
    hd_error (new_events w1 w2) =
      Some (at_counters (SetSample_call 4 0) (4, 0)) /\
    counters w2 = (4, 1).
Proof.
  intros w.
  assert (Hb : button_held sample_platform w) by (left; reflexivity).
  split; [exact Hb|]. split; [reflexivity|].
  exact (drag_then_tick_restarts sample_platform w 0 0 10 (-5) Hb eq_refl).
Defined.

Lemma motion_idle (P : Platform) (w : World) (x y dx dy : Z) :
  PlatformOK P ->
  mouse_down (self w) = -1 ->
  motion P x y dx dy w = Ok tt w.
Proof.
  intros OK Hidle. destruct OK as [_ _ _ _ _ _ HL HM HR].
  open_world w. cbn [self mouse_down] in Hidle. subst mouse_down0.
  unfold motion. exec.
  destruct (Z.eqb_spec (-1) (MOUSE_BUTTON_LEFT P)); [congruence|].
  destruct (Z.eqb_spec (-1) (MOUSE_BUTTON_MIDDLE P)); [congruence|].
  destruct (Z.eqb_spec (-1) (MOUSE_BUTTON_RIGHT P)); [congruence|].
  reflexivity.
Qed.

(** X18: a whole gesture.  Pressing one of the three buttons and moving
    the pointer resets the sample counter and asks for a redraw; after the
    button event that follows (a release), further motion events change
    nothing but the recorded modifier keys, so the accumulation that
    restarted is not disturbed again. *)
Theorem press_drag_release (P : Platform) (w : World)
    (button state : Z) (e1 e2 : MotionEvent) (mods x y : Z) :
  PlatformOK P ->
  button = MOUSE_BUTTON_LEFT P \/ button = MOUSE_BUTTON_MIDDLE P \/
  button = MOUSE_BUTTON_RIGHT P ->
  state <> BUTTON_PRESS P ->
  exists w1 w2,
    session P [Click button (BUTTON_PRESS P) mods x y; Move e1] w
      = Ok tt w1 /\
    sample (self w1) = 0 /\
    redraw_requested w w1 = true /\
    session P [Click button state mods x y] w1 = Ok tt w2 /\
    mouse_down (self w2) = -1 /\
    counters w2 = counters w1 /\
    handle P (Move e2) w2 = Ok tt (set_win_mods (me_mods e2) w2).
Proof.
  intros OK Hb Hst.
  set (wp := set_self (set_mouse_down button (self w)) w).
  destruct (motion_held P (set_win_mods (me_mods e1) wp)
              (me_x e1) (me_y e1) (me_dx e1) (me_dy e1))
    as (w1 & E1 & S1 & _ & _ & _ & R1).
  { subst wp. destruct w as [[] ? ? ? ? ? ? ? ? ? ? ? ? ?]. exact Hb. }
  set (w2 := set_self (set_mouse_down (-1) (self w1)) w1).
  exists w1, w2.
  split.
  { cbn [session handle]. unfold bind, mouse, assign, deliver.
    rewrite Z.eqb_refl. fold wp. rewrite E1. reflexivity. }
  split; [exact S1|].
  split.
  { subst wp. destruct w as [[] ? ? ? ? ? ? ? ? ? ? ? ? ?]. exact R1. }
  split.
  { cbn [session handle]. unfold bind, mouse, assign.
    destruct (Z.eqb_spec state (BUTTON_PRESS P)); [contradiction|].
    reflexivity. }
  split; [subst w2; destruct w1 as [[] ? ? ? ? ? ? ? ? ? ? ? ? ?]; reflexivity|].
  split; [subst w2; destruct w1 as [[] ? ? ? ? ? ? ? ? ? ? ? ? ?]; reflexivity|].
  cbn [handle]. unfold deliver.
  apply motion_idle; [exact OK|].
  subst w2. destruct w1 as [[] ? ? ? ? ? ? ? ? ? ? ? ? ?]. reflexivity.
Qed.

Lemma press_drag_release_witness :
  let e := {| me_x := 1; me_y := 2; me_dx := 3; me_dy := 4; me_mods := 0 |} in
  let w := with_counters 0 500 started in
  PlatformOK sample_platform /\
  (0 = MOUSE_BUTTON_LEFT sample_platform \/
   0 = MOUSE_BUTTON_MIDDLE sample_platform \/
   0 = MOUSE_BUTTON_RIGHT sample_platform) /\
  0 <> BUTTON_PRESS sample_platform /\
  exists w1 w2,
    session sample_platform
      [Click 0 (BUTTON_PRESS sample_platform) 0 1 2; Move e] w = Ok tt w1 /\
    sample (self w1) = 0 /\
    redraw_requested w w1 = true /\
    session sample_platform [Click 0 0 0 1 2] w1 = Ok tt w2 /\
    mouse_down (self w2) = -1 /\
    counters w2 = counters w1 /\
    handle sample_platform (Move e) w2 = Ok tt (set_win_mods (me_mods e) w2).
Proof.
  intros e w.
  assert (OK : PlatformOK sample_platform)
    by (constructor; vm_compute; discriminate).
  assert (Hb : 0 = MOUSE_BUTTON_LEFT sample_platform \/
               0 = MOUSE_BUTTON_MIDDLE sample_platform \/
               0 = MOUSE_BUTTON_RIGHT sample_platform)
    by (left; reflexivity).
  assert (Hs : 0 <> BUTTON_PRESS sample_platform)
    by (vm_compute; discriminate).
  split; [exact OK|]. split; [exact Hb|]. split; [exact Hs|].
  exact (press_drag_release sample_platform w 0 0 e e 0 1 2 OK Hb Hs).
Defined.

(** What [reshape] leaves alone. *)
Lemma reshape_frame (P : Platform) (w : World) (wd ht : Z) :
  exists w',
    reshape P wd ht w = Ok tt w' /\
    counters w' = counters w /\
    settings w' = settings w /\
    scn_light w' = scn_light w.
Proof.
  open_world w. unfold reshape. exec.
  destruct m_render_optix0; eexists; repeat split; reflexivity.
Qed.

Lemma settings_max_samples (w w' : World) :
  settings w' = settings w -> max_samples (self w') = max_samples (self w).
Proof. unfold settings. intros H. injection H as H _ _ _ _ _. exact H. Qed.

(** One callback keeps the sample counter within the budget and does not
    write what [init] chose. *)
Lemma handle_keeps (P : Platform) (ev : InputEvent) (w : World) :
  sample_in_budget w ->
  max_samples (self w) <= Int32.max_signed ->
  exists w',
    handle P ev w = Ok tt w' /\
    settings w' = settings w /\
    sample_in_budget w' /\
    scn_light w' = scn_light w /\
    (match ev with Tick => True | _ => frame (self w') = frame (self w) end).
Proof.
  unfold sample_in_budget. intros Hs Hm.
  destruct ev as [|e|button state mods x y|wd ht]; cbn [handle].
  - destruct (display_frame w) as (w' & E & S & (_ & L & _) & Ms & C).
    exists w'. split; [exact E|].
    assert (St : settings w' = settings w).
    { unfold settings. rewrite S, Ms. destruct (self w). reflexivity. }
    split; [exact St|].
    rewrite (settings_max_samples _ _ St).
    split; [|split; [exact L | exact I]].
    assert (R : Int32.incr (sample (self w)) = sample (self w) + 1).
    { apply Int32_incr_small; unfold Int32.in_range, Int32.min_signed,
        Int32.max_signed in *; lia. }
    rewrite R in C.
    destruct (Z.ltb_spec (sample (self w) + 1) (max_samples (self w)));
      apply counters_inv in C; destruct C as [_ Cs]; rewrite Cs; lia.
  - unfold deliver.
    destruct (motion_frame P (set_win_mods (me_mods e) w)
                (me_x e) (me_y e) (me_dx e) (me_dy e))
      as (w' & E & L & F & St & R).
    exists w'. split; [exact E|].
    assert (St' : settings w' = settings w)
      by (rewrite St; destruct w; reflexivity).
    split; [exact St'|].
    rewrite (settings_max_samples _ _ St').
    split; [|split; [rewrite L; destruct w; reflexivity
                    |rewrite F; destruct w; reflexivity]].
    destruct R as [R | ->]; [rewrite R; lia | destruct w; exact Hs].
  - unfold mouse, assign. eexists. split; [reflexivity|].
    destruct w as [[] ? ? ? ? ? ? ? ? ? ? ? ? ?].
    repeat split; first [reflexivity | apply Hs].
  - destruct (reshape_frame P w wd ht) as (w' & E & C & St & L).
    exists w'. split; [exact E|]. split; [exact St|].
    rewrite (settings_max_samples _ _ St).
    apply counters_inv in C. unfold counters in C.
    destruct C as [Cf Cs].
    split; [rewrite Cs; exact Hs|]. split; [exact L | exact Cf].
Qed.

(** X19: what holds throughout a session.  Through any sequence of ticks,
    motion events, button events and resizes, every callback returns, the
    sample counter stays within 0 <= sample < max_samples, and nothing
    [init] chose is written again: sample budget, shading mode, back end,
    material ids and the material table are as they were, and so is the
    light. *)
Theorem session_keeps_budget (P : Platform) (evs : list InputEvent) :
  forall w,
    sample_in_budget w ->
    max_samples (self w) <= Int32.max_signed ->
    exists w',
      session P evs w = Ok tt w' /\
      sample_in_budget w' /\
      settings w' = settings w /\
      scn_light w' = scn_light w.
Proof.
  induction evs as [|ev evs IH]; intros w Hs Hm.
  - exists w. repeat split; first [reflexivity | apply Hs].
  - destruct (handle_keeps P ev w Hs Hm) as (w1 & E & St & B & L & _).
    destruct (IH w1 B) as (w2 & E2 & B2 & St2 & L2).
    { rewrite (settings_max_samples _ _ St). exact Hm. }
    exists w2. split.
    { cbn [session]. unfold bind. rewrite E. exact E2. }
    split; [exact B2|]. split; congruence.
Qed.

Lemma session_keeps_budget_witness :
  let evs := [Tick; Click 0 1 0 5 5;
              Move {| me_x := 6; me_y := 5; me_dx := 1; me_dy := 0; me_mods := 0 |};
              Resize 800 600; Tick; Click 0 0 0 6 5; Tick] in
  sample_in_budget started /\
  max_samples (self started) <= Int32.max_signed /\
  exists w',
    session sample_platform evs started = Ok tt w' /\
    sample_in_budget w' /\
    settings w' = settings started /\
    scn_light w' = scn_light started.
Proof.
  intros evs.
  assert (Hs : sample_in_budget started)
    by (vm_compute; split; [discriminate | reflexivity]).
  assert (Hm : max_samples (self started) <= Int32.max_signed)
    by (vm_compute; discriminate).
  split; [exact Hs|]. split; [exact Hm|].
  exact (session_keeps_budget sample_platform evs started Hs Hm).
Defined.

Lemma handle_other_keeps_frame (P : Platform) (ev : InputEvent) (w : World) :
  ev <> Tick ->
  exists w', handle P ev w = Ok tt w' /\ frame (self w') = frame (self w).
Proof.
  intros Hev.
  destruct ev as [|e|button state mods x y|wd ht]; cbn [handle].
  - contradiction.
  - unfold deliver.
    destruct (motion_frame P (set_win_mods (me_mods e) w)
                (me_x e) (me_y e) (me_dx e) (me_dy e))
      as (w' & E & _ & F & _).
    exists w'. split; [exact E|]. rewrite F. destruct w; reflexivity.
  - unfold mouse, assign. eexists. split; [reflexivity|].
    destruct w as [[] ? ? ? ? ? ? ? ? ? ? ? ? ?]. reflexivity.
  - destruct (reshape_frame P w wd ht) as (w' & E & C & _).
    exists w'. split; [exact E|]. apply counters_inv in C.
    unfold counters in C. apply C.
Qed.

(** X20: only the display tick advances the frame counter.  Through any
    sequence of motion events, button events and resizes, with no tick
    among them, every callback returns and the frame counter does not
    move. *)
Theorem interaction_keeps_frame (P : Platform) (evs : list InputEvent) :
  forall w,
    count_ticks evs = 0%nat ->
    exists w',
      session P evs w = Ok tt w' /\
      frame (self w') = frame (self w).
Proof.
  induction evs as [|ev evs IH]; intros w Hc.
  - exists w. split; reflexivity.
  - assert (Hev : ev <> Tick).
    { intros ->. discriminate Hc. }
    assert (Hc' : count_ticks evs = 0%nat).
    { destruct ev; [contradiction| | |]; exact Hc. }
    destruct (handle_other_keeps_frame P ev w Hev) as (w1 & E & F).
    destruct (IH w1 Hc') as (w2 & E2 & F2).
    exists w2. split; [|congruence].
    cbn [session]. unfold bind. rewrite E. exact E2.
Qed.

Lemma interaction_keeps_frame_witness :
  let evs := [Click 2 1 0 5 5;
              Move {| me_x := 6; me_y := 5; me_dx := 1; me_dy := 0; me_mods := 0 |};
              Resize 800 600; Click 2 0 0 6 5] in
  let w := with_counters 6 100 started in
  count_ticks evs = 0%nat /\
  exists w',
    session sample_platform evs w = Ok tt w' /\ frame (self w') = 6.
Proof.
  intros evs w. split; [reflexivity|].
  exact (interaction_keeps_frame sample_platform evs w eq_refl).
Defined.

(** ** Drawing the topology *)

Lemma draw_nodes_run (lev : Z) (nodes : list Node) :
  forall w,
    draw_nodes lev nodes w =
      Ok tt (logged (map (drawBox3D_call lev) (filter flagged nodes)) w).
Proof.
  induction nodes as [|node nodes IH]; intros w.
  - cbn [draw_nodes filter map]. rewrite logged_nil. reflexivity.
  - cbn [draw_nodes filter]. unfold bind, draw_node, flagged.
    destruct (Int32.wrap (node_flags node) =? 0); cbn [negb].
    + unfold ret. apply IH.
    + rewrite call_logged, IH, logged_app. reflexivity.
Qed.

Lemma draw_levels_run (topo : Topology) (levs : list Z) :
  forall w,
    draw_levels topo levs w =
      Ok tt (logged (flat_map (level_boxes topo) levs) w).
Proof.
  induction levs as [|lev levs IH]; intros w.
  - cbn [draw_levels flat_map]. rewrite logged_nil. reflexivity.
  - cbn [draw_levels flat_map]. unfold bind.
    rewrite draw_nodes_run, IH, logged_app. reflexivity.
Qed.

Lemma draw_topology_run (topo : Topology) (w : World) :
  draw_topology topo w =
    Ok tt (logged (start3D_call
                   :: flat_map (level_boxes topo) [0; 1; 2; 3; 4]
                   ++ [end3D_call]) w).
Proof.
  unfold draw_topology, bind.
  rewrite call_logged, draw_levels_run, call_logged, !logged_app.
  reflexivity.
Qed.

(** X21: what [draw_topology] draws.  It always returns and changes
    nothing but the record of calls; between [start3D] and [end3D] it
    draws one box for every node of levels 0 to 4 whose flag word is not
    zero, level by level and in node order, with the box of the node and
    the colour of its level; a node whose flags are zero is skipped. *)
Theorem draw_topology_draws_flagged (topo : Topology) (w : World) :
  draw_topology topo w =
    Ok tt (logged (start3D_call
                   :: flat_map (level_boxes topo) [0; 1; 2; 3; 4]
                   ++ [end3D_call]) w) /\
  counters (world_of (draw_topology topo w)) = counters w /\
  List.length (new_calls w (world_of (draw_topology topo w))) =
    (2 + List.length (filter flagged
                        (flat_map topo [0; 1; 2; 3; 4]%Z)))%nat.
Proof.
  pose proof (draw_topology_run topo w) as E.
  split; [exact E|]. rewrite E. cbn [world_of].
  split.
  - unfold counters. rewrite logged_self. reflexivity.
  - rewrite new_calls_logged. cbn [List.length].
    rewrite length_app. cbn [List.length].
    unfold level_boxes. cbn [flat_map].
    rewrite !app_nil_r, !filter_app, !length_app, !length_map. lia.
Qed.

(** X22: levels outside 0..4 are never drawn.  Two topologies that agree
    on levels 0 to 4 give the same run, whatever they hold elsewhere. *)
Theorem draw_topology_ignores_deep_levels (topo1 topo2 : Topology)
    (w : World) :
  (forall lev, 0 <= lev < 5 -> topo1 lev = topo2 lev) ->
  draw_topology topo1 w = draw_topology topo2 w.
Proof.
  intros H.
  rewrite (draw_topology_run topo1 w), (draw_topology_run topo2 w).
  unfold level_boxes. cbn [flat_map].
  rewrite (H 0), (H 1), (H 2), (H 3), (H 4) by lia. reflexivity.
Qed.

Lemma draw_topology_ignores_deep_levels_witness :
  let node := {| node_flags := 1; node_world_min := origin;
                 node_world_max := V3i 8 8 8 |} in
  let topo1 : Topology := fun lev => if lev =? 2 then [node] else [] in
  let topo2 : Topology :=
    fun lev => if lev =? 2 then [node] else if lev =? 7 then [node; node] else [] in
  (forall lev, 0 <= lev < 5 -> topo1 lev = topo2 lev) /\
  draw_topology topo1 started = draw_topology topo2 started.
Proof.
  intros node topo1 topo2.
  assert (H : forall lev, 0 <= lev < 5 -> topo1 lev = topo2 lev).
  { intros lev Hl. unfold topo1, topo2.
    destruct (lev =? 2); [reflexivity|].
    destruct (Z.eqb_spec lev 7); [lia | reflexivity]. }
  split; [exact H|].
  exact (draw_topology_ignores_deep_levels topo1 topo2 started H).
Defined.

(** ** Order of the start-up calls *)

(** X23: the order the comments of [init] ask for holds in every
    successful start-up.  OptiX is initialised before gvdb, which is told
    to use the current device (the context OptiX created); OpenGL atlases
    are switched on before the volume is loaded; the transfer function is
    committed in gvdb before it is handed to OptiX; and the volume is
    loaded before its data is synchronised into the graph. *)
Theorem init_call_order (P : Platform) (w : World) (path : string) :
  env_vdb_path w = Some path ->
  env_vdb_loads w = true ->
  let cs := new_calls w (world_of (init P w)) in
  first_call "optx.InitializeOptix" cs = Some 0%nat /\
  all_before "optx.InitializeOptix" "gvdb.Initialize" cs = true /\
  In {| callee := "gvdb.SetCudaDevice"; args := [AInt (GVDB_DEV_CURRENT P)] |}
     cs /\
  all_before "gvdb.SetCudaDevice" "gvdb.Initialize" cs = true /\
  all_before "gvdb.UseOpenGLAtlas" "gvdb.LoadVDB" cs = true /\
  all_before "gvdb.CommitTransferFunc" "optx.SetTransferFunc" cs = true /\
  all_before "gvdb.LoadVDB" "optx.UpdateVolume" cs = true /\
  all_before "createScreenQuadGL" "optx.ClearGraph" cs = true.
Proof.
  open_world w. cbn [env_vdb_path env_vdb_loads]. intros -> ->.
  unfold init, RebuildOptixGraph. exec. show_new_events.
  repeat (split; [reflexivity|]).
  split; [cbn [In]; tauto|].
  repeat (split; [reflexivity|]). reflexivity.
Qed.

Lemma init_call_order_witness :
  env_vdb_path blank_world
    = Some "../shared_assets/wdas_cloud_eighth.vdb"%string /\
  env_vdb_loads blank_world = true /\
  all_before "gvdb.UseOpenGLAtlas" "gvdb.LoadVDB"
    (new_calls blank_world (world_of (init sample_platform blank_world)))
    = true.
Proof.
  split; [reflexivity|]. split; [reflexivity|].
  destruct (init_call_order sample_platform blank_world
              "../shared_assets/wdas_cloud_eighth.vdb"%string
              eq_refl eq_refl) as (_ & _ & _ & _ & H & _).
  exact H.
Defined.

(** X24: a tick writes the two counters and nothing else.  Whatever the
    back end, [display] leaves every other member of the object, the
    camera, the light, the volume transform, the window state and the
    material table as they were. *)
Theorem display_touches_only_counters (w : World) :
  exists w',
    display w = Ok tt w' /\
    self w' =
      set_sample (sample (self w')) (set_frame (frame (self w')) (self w)) /\
    same_scene w w' /\
    optx_materials w' = optx_materials w.
Proof.
  destruct (display_frame w) as (w' & E & S & Sc & M & _).
  exists w'. repeat split; try assumption; apply Sc.
Qed.

(** ** The orbit drag on whole-number angles *)



